(** * Shape rewriter of [converter/onnx_batch_size_converter.py]

    A shallow embedding of [update_inputs_outputs_dims] and of its two local
    helpers [init_dim_param_set] and [update_dim], followed by the properties
    of the rewrite that the design document states.

    The protobuf messages the function walks over are records; a repeated
    field is a list; the [oneof] of a dimension is a three-way variant.  The
    two dimension dictionaries are finite maps keyed by strings, the set of
    symbolic names is a finite set of strings.  A Python exception is a value
    of [exn]; a loop that raises returns the object it was mutating in the
    state it had when the exception left the loop. *)

From stdpp Require Import base decidable option list strings pretty gmap.
From Stdlib Require Import ZArith Lia Ascii.

Local Open Scope string_scope.
Local Open Scope list_scope.
Local Open Scope nat_scope.

(** ** Protobuf messages *)

Module Proto.

(** [TensorShapeProto.Dimension]: the [oneof value] holds [dim_value],
    [dim_param], or nothing; [denotation] is a separate field.  [dim_value]
    is an [int64] field: the setter refuses a Python integer outside the
    range of [int64] (see [assign_dim_value] below). *)
Inductive oneof_value : Type :=
  | NotSet
  | dim_value (v : Z)
  | dim_param (s : string).

Record Dimension : Type := mkDimension {
  value : oneof_value;
  denotation : string
}.

(** [ValueInfoProto]; [dim] stands for [type.tensor_type.shape.dim], which
    reads as the empty sequence when the type is not a tensor type or has no
    shape. *)
Record ValueInfoProto : Type := mkValueInfo {
  name : string;
  elem_type : Z;
  dim : list Dimension;
  doc_string : string
}.

Record NodeProto : Type := mkNode {
  node_name : string;
  op_type : string;
  node_input : list string;
  node_output : list string
}.

Record TensorProto : Type := mkTensor {
  tensor_name : string;
  dims : list Z
}.

Record GraphProto : Type := mkGraph {
  node : list NodeProto;
  initializer : list TensorProto;
  input : list ValueInfoProto;
  output : list ValueInfoProto;
  value_info : list ValueInfoProto
}.

Record ModelProto : Type := mkModel {
  ir_version : Z;
  producer_name : string;
  graph : GraphProto
}.

(** [HasField("dim_value")], [HasField("dim_param")] and the getters, which
    return the field's default when another member of the oneof is set. *)
Definition HasField_dim_value (d : Dimension) : bool :=
  match value d with dim_value _ => true | _ => false end.

Definition HasField_dim_param (d : Dimension) : bool :=
  match value d with dim_param _ => true | _ => false end.

Definition get_dim_value (d : Dimension) : Z :=
  match value d with dim_value v => v | _ => 0%Z end.

Definition get_dim_param (d : Dimension) : string :=
  match value d with dim_param s => s | _ => "" end.

(** Assigning one member of the oneof clears the other and leaves
    [denotation] alone.  [set_dim_value] is the write of [dim_value] once
    the setter has found the integer in range. *)
Definition set_dim_value (d : Dimension) (v : Z) : Dimension :=
  {| value := dim_value v; denotation := denotation d |}.

(** The range of an [int64] field. *)
Definition int64_min : Z := (- 2 ^ 63)%Z.
Definition int64_max : Z := (2 ^ 63 - 1)%Z.

Definition in_int64 (v : Z) : bool :=
  bool_decide (int64_min ≤ v)%Z && bool_decide (v ≤ int64_max)%Z.

Definition set_dim_param (d : Dimension) (s : string) : Dimension :=
  {| value := dim_param s; denotation := denotation d |}.

(** Writing through the reference [tensor.type.tensor_type.shape.dim[j]]. *)
Definition store_dim (tensor : ValueInfoProto) (j : nat) (d : Dimension)
  : ValueInfoProto :=
  {| name := name tensor;
     elem_type := elem_type tensor;
     dim := <[j := d]> (dim tensor);
     doc_string := doc_string tensor |}.

Definition with_input (g : GraphProto) (l : list ValueInfoProto) : GraphProto :=
  {| node := node g; initializer := initializer g; input := l;
     output := output g; value_info := value_info g |}.

Definition with_output (g : GraphProto) (l : list ValueInfoProto) : GraphProto :=
  {| node := node g; initializer := initializer g; input := input g;
     output := l; value_info := value_info g |}.

Definition with_graph (m : ModelProto) (g : GraphProto) : ModelProto :=
  {| ir_version := ir_version m; producer_name := producer_name m; graph := g |}.

End Proto.
Export Proto.

(** ** Python values and exceptions *)

(** The values a dimension list can hold ([List[Any]]).  [PyOther] is a value
    of any type other than [int], [bool] and [str], named by its type. *)
Inductive pyval : Type :=
  | PyInt (z : Z)
  | PyBool (b : bool)
  | PyStr (s : string)
  | PyOther (type_name : string).

(** [isinstance(dim, int)]: [bool] is a subclass of [int]. *)
Definition isinstance_int (dim : pyval) : bool :=
  match dim with PyInt _ | PyBool _ => true | _ => false end.

Definition isinstance_str (dim : pyval) : bool :=
  match dim with PyStr _ => true | _ => false end.

(** The integer a value of type [int] (or [bool]) compares and stores as. *)
Definition int_of (dim : pyval) : Z :=
  match dim with
  | PyInt z => z
  | PyBool b => Z.b2z b
  | _ => 0%Z
  end.

Definition str_of (dim : pyval) : string :=
  match dim with PyStr s => s | _ => "" end.

Definition type_of (dim : pyval) : string :=
  match dim with
  | PyInt _ => "int"
  | PyBool _ => "bool"
  | PyStr _ => "str"
  | PyOther t => t
  end.

(** The exceptions that can leave the function, with the values their
    messages are formatted from. *)
Inductive exn : Type :=
  | KeyError (key : string)
  | IndexError
  | ValueError_contradicts (dim : pyval) (j : nat) (name : string) (existing : Z)
  | ValueError_not_unique (j : nat) (name : string)
  | ValueError_type (type_name : string)
  | ValueError_out_of_range (v : Z)
  | ValidationError.

(** The failure kinds of the design document, and the refusal of an integer
    that does not fit the [int64] field. *)
Inductive failure_kind : Type :=
  | LookupFailure
  | OutOfRangeAccess
  | ContradictionFailure
  | NameCollisionFailure
  | InvalidTypeFailure
  | ValueRangeFailure
  | StructuralConsistencyFailure.

Definition kind_of (e : exn) : failure_kind :=
  match e with
  | KeyError _ => LookupFailure
  | IndexError => OutOfRangeAccess
  | ValueError_contradicts _ _ _ _ => ContradictionFailure
  | ValueError_not_unique _ _ => NameCollisionFailure
  | ValueError_type _ => InvalidTypeFailure
  | ValueError_out_of_range _ => ValueRangeFailure
  | ValidationError => StructuralConsistencyFailure
  end.

(** [dim_proto.dim_value = v]: the setter of the [int64] field raises
    [ValueError] for an integer out of range and then writes nothing. *)
Definition assign_dim_value (d : Dimension) (v : Z) : exn + Dimension :=
  if in_int64 v then inr (set_dim_value d v)
  else inl (ValueError_out_of_range v).

(** ** The rewrite *)

(** [init_dim_param_set]: add every [dim_param] of every shape. *)
Definition add_dim_params (dim_param_set : gset string) (shape : list Dimension)
  : gset string :=
  foldl (fun acc d =>
           if HasField_dim_param d then {[ get_dim_param d ]} ∪ acc else acc)
        dim_param_set shape.

Definition init_dim_param_set (dim_param_set : gset string)
    (value_infos : list ValueInfoProto) : gset string :=
  foldl (fun acc info => add_dim_params acc (dim info)) dim_param_set value_infos.

(** [name + "_" + str(j)] *)
Definition generated_dim_param (name : string) (j : nat) : string :=
  name +:+ "_" +:+ pretty j.

(** [update_dim].  Every [raise] precedes the assignment of its branch, and
    an assignment that is refused writes nothing, so a call that raises
    leaves the tensor as it was: the tensor is returned only on success. *)
Definition update_dim (dim_param_set : gset string) (tensor : ValueInfoProto)
    (dim : pyval) (j : nat) (name : string) : exn + ValueInfoProto :=
  match Proto.dim tensor !! j with
  | None => inl IndexError
  | Some dim_proto =>
    if isinstance_int dim then
      if bool_decide (0 ≤ int_of dim)%Z then
        if HasField_dim_value dim_proto
           && bool_decide (get_dim_value dim_proto ≠ int_of dim)
        then inl (ValueError_contradicts dim j name (get_dim_value dim_proto))
        else
          match assign_dim_value dim_proto (int_of dim) with
          | inl e => inl e
          | inr dim_proto' => inr (store_dim tensor j dim_proto')
          end
      else
        let generated := generated_dim_param name j in
        if bool_decide (generated ∈ dim_param_set)
        then inl (ValueError_not_unique j name)
        else inr (store_dim tensor j (set_dim_param dim_proto generated))
    else if isinstance_str dim then
      inr (store_dim tensor j (set_dim_param dim_proto (str_of dim)))
    else inl (ValueError_type (type_of dim))
  end.

(** [for j, dim in enumerate(arr): update_dim(tensor, dim, j, name)], started
    at index [j].  The tensor comes back as the loop left it, with the
    exception that ended the loop, if one did. *)
Fixpoint update_dims (dim_param_set : gset string) (tensor : ValueInfoProto)
    (arr : list pyval) (j : nat) (name : string)
  : ValueInfoProto * option exn :=
  match arr with
  | [] => (tensor, None)
  | dim :: arr' =>
    match update_dim dim_param_set tensor dim j name with
    | inl e => (tensor, Some e)
    | inr tensor' => update_dims dim_param_set tensor' arr' (S j) name
    end
  end.

(** One of the two loops over [model.graph.input] / [model.graph.output]:
    look the tensor's name up in the dictionary, then update its axes. *)
Fixpoint update_tensors (dim_param_set : gset string)
    (dims_of : gmap string (list pyval)) (tensors : list ValueInfoProto)
  : list ValueInfoProto * option exn :=
  match tensors with
  | [] => ([], None)
  | tensor :: rest =>
    match dims_of !! Proto.name tensor with
    | None => (tensor :: rest, Some (KeyError (Proto.name tensor)))
    | Some dim_arr =>
      match update_dims dim_param_set tensor dim_arr 0 (Proto.name tensor) with
      | (tensor', Some e) => (tensor' :: rest, Some e)
      | (tensor', None) =>
        let (rest', r) := update_tensors dim_param_set dims_of rest in
        (tensor' :: rest', r)
      end
    end
  end.

(** The set of symbolic names, as the three calls of lines 45 to 47 build it. *)
Definition collect_dim_params (m : ModelProto) : gset string :=
  init_dim_param_set
    (init_dim_param_set
       (init_dim_param_set ∅ (input (graph m)))
       (output (graph m)))
    (value_info (graph m)).

(** Model objects live in a store; the function receives and returns a
    reference. *)
Definition loc := nat.
Definition store := loc → ModelProto.

Definition write (h : store) (l : loc) (m : ModelProto) : store :=
  fun l' => if decide (l' = l) then m else h l'.

Section Rewrite.

(** [onnx.checker.check_model]: external; [true] when the model is accepted. *)
Variable check_model : ModelProto → bool.

(** The function body on the model object: the object after the call, and the
    exception that left the function, if one did. *)
Definition run (m : ModelProto) (input_dims output_dims : gmap string (list pyval))
  : ModelProto * option exn :=
  let dim_param_set := collect_dim_params m in
  let (inputs', r_in) := update_tensors dim_param_set input_dims (input (graph m)) in
  let m1 := with_graph m (with_input (graph m) inputs') in
  match r_in with
  | Some e => (m1, Some e)
  | None =>
    let (outputs', r_out) :=
      update_tensors dim_param_set output_dims (output (graph m1)) in
    let m2 := with_graph m1 (with_output (graph m1) outputs') in
    match r_out with
    | Some e => (m2, Some e)
    | None => if check_model m2 then (m2, None) else (m2, Some ValidationError)
    end
  end.

(** [update_inputs_outputs_dims(model, input_dims, output_dims)]: the object
    behind [model] is mutated; the reference itself is returned. *)
Definition update_inputs_outputs_dims (model : loc)
    (input_dims output_dims : gmap string (list pyval)) (h : store)
  : store * (exn + loc) :=
  let (m', r) := run (h model) input_dims output_dims in
  (write h model m', match r with Some e => inl e | None => inr model end).

End Rewrite.

(** ** What the rewrite never touches *)

(** A tensor with the [oneof] of every axis blanked: all that [update_dim]
    cannot change. *)
Definition skeleton_dim (d : Dimension) : Dimension :=
  {| value := NotSet; denotation := denotation d |}.

Definition skeleton (t : ValueInfoProto) : ValueInfoProto :=
  {| name := name t;
     elem_type := elem_type t;
     dim := skeleton_dim <$> dim t;
     doc_string := doc_string t |}.

Definition model_skeleton (m : ModelProto) : ModelProto :=
  with_graph m
    (with_output (with_input (graph m) (skeleton <$> input (graph m)))
                 (skeleton <$> output (graph m))).

(** ** Where a call stands *)

(** The two loops of the function body. *)
Inductive phase : Type := Inputs | Outputs.

Definition tensors_of (ph : phase) (m : ModelProto) : list ValueInfoProto :=
  match ph with
  | Inputs => input (graph m)
  | Outputs => output (graph m)
  end.

Definition dims_for (ph : phase) (input_dims output_dims : gmap string (list pyval))
  : gmap string (list pyval) :=
  match ph with Inputs => input_dims | Outputs => output_dims end.

Definition with_tensors (ph : phase) (m : ModelProto) (l : list ValueInfoProto)
  : ModelProto :=
  match ph with
  | Inputs => with_graph m (with_input (graph m) l)
  | Outputs => with_graph m (with_output (graph m) l)
  end.

(** The model when the loop of phase [ph] starts, if the call gets there. *)
Definition loop_start (m : ModelProto) (input_dims : gmap string (list pyval))
    (ph : phase) : option ModelProto :=
  match ph with
  | Inputs => Some m
  | Outputs =>
    match update_tensors (collect_dim_params m) input_dims (input (graph m)) with
    | (inputs', None) => Some (with_tensors Inputs m inputs')
    | (_, Some _) => None
    end
  end.

(** The model and the tensor when the loop of phase [ph] is about to look up
    the dimensions of its [i]-th tensor, if the call gets there. *)
Definition at_tensor (m : ModelProto)
    (input_dims output_dims : gmap string (list pyval)) (ph : phase) (i : nat)
  : option (ModelProto * ValueInfoProto) :=
  m1 ← loop_start m input_dims ph;
  t ← tensors_of ph m !! i;
  match update_tensors (collect_dim_params m) (dims_for ph input_dims output_dims)
          (take i (tensors_of ph m)) with
  | (pre', None) => Some (with_tensors ph m1 (pre' ++ drop i (tensors_of ph m)), t)
  | (_, Some _) => None
  end.

(** The model, the tensor and the target value when [update_dim] is about to
    be called for axis [j] of the [i]-th tensor of phase [ph], if the call
    gets there. *)
Definition at_axis (m : ModelProto)
    (input_dims output_dims : gmap string (list pyval)) (ph : phase) (i j : nat)
  : option (ModelProto * ValueInfoProto * pyval) :=
  '(m_now, t) ← at_tensor m input_dims output_dims ph i;
  arr ← dims_for ph input_dims output_dims !! name t;
  dim ← arr !! j;
  match update_dims (collect_dim_params m) t (take j arr) 0 (name t) with
  | (t1, None) =>
    Some (with_tensors ph m_now (<[i := t1]> (tensors_of ph m_now)), t1, dim)
  | (_, Some _) => None
  end.

(** The descriptor of axis [j] of the [i]-th tensor of phase [ph]. *)
Definition axis_of (m : ModelProto) (ph : phase) (i j : nat) : option Dimension :=
  t ← tensors_of ph m !! i; dim t !! j.

(** ** Symbolic names and generated names *)

(** [s] is the [dim_param] of some axis of some tensor of the list. *)
Definition dim_param_in (infos : list ValueInfoProto) (s : string) : Prop :=
  ∃ t d, t ∈ infos ∧ d ∈ dim t ∧ value d = dim_param s.

(** Whether the character [c] occurs in [s]. *)
Fixpoint occurs (c : ascii) (s : string) : bool :=
  match s with
  | EmptyString => false
  | String a s' => if decide (a = c) then true else occurs c s'
  end.

(** The place of a tensor among the inputs followed by the outputs. *)
Definition position (m : ModelProto) (ph : phase) (i : nat) : nat :=
  match ph with
  | Inputs => i
  | Outputs => length (input (graph m)) + i
  end.

(** ** Booleans as integers *)

(** A dimension list with every [bool] replaced by the [int] it equals. *)
Definition as_int (d : pyval) : pyval :=
  match d with
  | PyBool b => PyInt (Z.b2z b)
  | _ => d
  end.

Definition as_ints (dims_of : gmap string (list pyval))
  : gmap string (list pyval) :=
  (λ arr : list pyval, as_int <$> arr) <$> dims_of.

(** An exception with the requested value of a contradiction replaced by the
    integer it equals: the same failure, the message apart, where a [bool]
    is printed as [True] or [False]. *)
Definition int_in_message (e : exn) : exn :=
  match e with
  | ValueError_contradicts d j n v => ValueError_contradicts (as_int d) j n v
  | _ => e
  end.

Definition outcome_kind (r : exn + loc) : failure_kind + loc :=
  match r with
  | inl e => inl (kind_of e)
  | inr l => inr l
  end.

(** ** The rewrite, axis by axis *)

(** Whether [update_dim] goes through for the target [d] on an axis that
    holds [dp] (a non-negative integer contradicts no fixed value held and
    fits the [int64] field, a negative one has a candidate that is not an
    existing name, a string always), what it then leaves in the axis, and
    what it raises otherwise. *)
Definition accepts (names : gset string) (name : string) (j : nat)
    (dp : Dimension) (d : pyval) : bool :=
  if isinstance_int d then
    if bool_decide (0 ≤ int_of d)%Z then
      negb (HasField_dim_value dp && bool_decide (get_dim_value dp ≠ int_of d))
      && in_int64 (int_of d)
    else bool_decide (generated_dim_param name j ∉ names)
  else isinstance_str d.

Definition target (name : string) (j : nat) (dp : Dimension) (d : pyval)
  : Dimension :=
  if isinstance_int d then
    if bool_decide (0 ≤ int_of d)%Z then set_dim_value dp (int_of d)
    else set_dim_param dp (generated_dim_param name j)
  else set_dim_param dp (str_of d).

Definition refusal (name : string) (j : nat) (dp : Dimension) (d : pyval) : exn :=
  if isinstance_int d then
    if bool_decide (0 ≤ int_of d)%Z then
      if HasField_dim_value dp && bool_decide (get_dim_value dp ≠ int_of d)
      then ValueError_contradicts d j name (get_dim_value dp)
      else ValueError_out_of_range (int_of d)
    else ValueError_not_unique j name
  else ValueError_type (type_of d).

(** The entries [arr] against the axes [shape], from axis [j] on: whether
    every entry has an axis that accepts it, and the axes with every entry
    applied to its own axis. *)
Fixpoint all_accepted (names : gset string) (name : string) (j : nat)
    (shape : list Dimension) (arr : list pyval) {struct arr} : bool :=
  match arr, shape with
  | [], _ => true
  | d :: arr', dp :: shape' =>
    accepts names name j dp d && all_accepted names name (S j) shape' arr'
  | _ :: _, [] => false
  end.

Fixpoint targets (name : string) (j : nat) (shape : list Dimension)
    (arr : list pyval) {struct arr} : list Dimension :=
  match arr, shape with
  | d :: arr', dp :: shape' => target name j dp d :: targets name (S j) shape' arr'
  | _, _ => shape
  end.

Definition with_dim (t : ValueInfoProto) (shape : list Dimension) : ValueInfoProto :=
  {| name := name t; elem_type := elem_type t; dim := shape;
     doc_string := doc_string t |}.

Definition tensor_accepted (names : gset string)
    (dims_of : gmap string (list pyval)) (t : ValueInfoProto) : bool :=
  match dims_of !! name t with
  | None => false
  | Some arr => all_accepted names (name t) 0 (dim t) arr
  end.

Definition rewritten (dims_of : gmap string (list pyval)) (t : ValueInfoProto)
  : ValueInfoProto :=
  match dims_of !! name t with
  | None => t
  | Some arr => with_dim t (targets (name t) 0 (dim t) arr)
  end.

Definition model_accepted (m : ModelProto)
    (input_dims output_dims : gmap string (list pyval)) : bool :=
  forallb (tensor_accepted (collect_dim_params m) input_dims) (input (graph m))
  && forallb (tensor_accepted (collect_dim_params m) output_dims) (output (graph m)).

Definition rewritten_model (m : ModelProto)
    (input_dims output_dims : gmap string (list pyval)) : ModelProto :=
  with_graph m
    (with_output (with_input (graph m) (rewritten input_dims <$> input (graph m)))
                 (rewritten output_dims <$> output (graph m))).

(** Whether a target asks for a generated name. *)
Definition asks_generated (d : pyval) : bool :=
  isinstance_int d && bool_decide (int_of d < 0)%Z.

(** ** Example models *)

Module Ex.

Definition fixed (v : Z) : Dimension := {| value := dim_value v; denotation := "" |}.
Definition symbolic (s : string) : Dimension :=
  {| value := dim_param s; denotation := "" |}.

Definition tensor (n : string) (shape : list Dimension) : ValueInfoProto :=
  {| name := n; elem_type := 1; dim := shape; doc_string := "" |}.

Definition model (ins outs infos : list ValueInfoProto) : ModelProto :=
  {| ir_version := 8; producer_name := "";
     graph := {| node := []; initializer := []; input := ins; output := outs;
                 value_info := infos |} |}.

(** A validator that accepts every model, and one that refuses every model. *)
Definition accept (_ : ModelProto) : bool := true.
Definition refuse (_ : ModelProto) : bool := false.

(** A store whose every reference holds [m]. *)
Definition only (m : ModelProto) : store := fun _ => m.

(** One input [x] of shape [(3, "n")], one output [y] of shape [("n", 5)],
    and an intermediate tensor whose one axis is named ["y_0"]. *)
Definition x : ValueInfoProto := tensor "x" [fixed 3; symbolic "n"].
Definition y : ValueInfoProto := tensor "y" [symbolic "n"; fixed 5].
Definition hidden : ValueInfoProto := tensor "hidden" [symbolic "y_0"].
Definition m : ModelProto := model [x] [y] [hidden].

End Ex.

(** ** The axis update *)

Section UpdateDim.

Context (S0 : gset string).

Lemma store_dim_same (t : ValueInfoProto) (j : nat) (d : Dimension) :
  dim t !! j = Some d → store_dim t j d = t.
Proof.
  intros Hj. destruct t as [n e ds doc]; unfold store_dim; simpl in *.
  by rewrite list_insert_id.
Qed.

Lemma update_dim_out_of_range t d j n :
  dim t !! j = None → update_dim S0 t d j n = inl IndexError.
Proof. intros H. unfold update_dim. by rewrite H. Qed.

(** A successful update rewrites axis [j] and nothing else of the tensor. *)
Lemma update_dim_inr t d j n t' :
  update_dim S0 t d j n = inr t' →
  ∃ dp x, dim t !! j = Some dp ∧ t' = store_dim t j x
          ∧ denotation x = denotation dp.
Proof.
  unfold update_dim, assign_dim_value.
  destruct (dim t !! j) as [dp|] eqn:Hj; [|done].
  intros H. exists dp.
  repeat case_match; simplify_eq; eexists; (split; [done|]); by split.
Qed.

Lemma update_dim_name t d j n t' :
  update_dim S0 t d j n = inr t' → name t' = name t.
Proof. intros (dp & x & _ & -> & _)%update_dim_inr. done. Qed.

Lemma update_dim_lookup_ne t d j n t' k :
  update_dim S0 t d j n = inr t' → k ≠ j → dim t' !! k = dim t !! k.
Proof.
  intros (dp & x & _ & -> & _)%update_dim_inr Hk. simpl.
  by rewrite list_lookup_insert_ne.
Qed.

Lemma update_dim_length t d j n t' :
  update_dim S0 t d j n = inr t' → length (dim t') = length (dim t).
Proof.
  intros (dp & x & _ & -> & _)%update_dim_inr. simpl. apply length_insert.
Qed.

End UpdateDim.

(** ** The skeleton is preserved *)

Lemma skeleton_name t t' : skeleton t' = skeleton t → name t' = name t.
Proof. intros H. by apply (f_equal name) in H. Qed.

Lemma skeleton_length t t' :
  skeleton t' = skeleton t → length (dim t') = length (dim t).
Proof.
  intros H. apply (f_equal (λ x, length (dim x))) in H. simpl in H.
  by rewrite !length_fmap in H.
Qed.

Lemma skeleton_store_dim t j dp x :
  dim t !! j = Some dp → denotation x = denotation dp →
  skeleton (store_dim t j x) = skeleton t.
Proof.
  intros Hj Hx. unfold skeleton, store_dim; simpl. f_equal.
  rewrite list_fmap_insert. apply list_insert_id.
  rewrite list_lookup_fmap, Hj. simpl. unfold skeleton_dim. by rewrite Hx.
Qed.

Section Loops.

Context (S0 : gset string).

Lemma update_dim_skeleton t d j n t' :
  update_dim S0 t d j n = inr t' → skeleton t' = skeleton t.
Proof.
  intros (dp & x & Hj & -> & Hx)%update_dim_inr. by eapply skeleton_store_dim.
Qed.

(** *** The loop over the axes of one tensor *)

Lemma update_dims_skeleton arr : ∀ t j n,
  skeleton (update_dims S0 t arr j n).1 = skeleton t.
Proof.
  induction arr as [|d arr IH]; intros t j n; simpl; [done|].
  destruct (update_dim S0 t d j n) as [e|t1] eqn:Hd; [done|].
  rewrite IH. by eapply update_dim_skeleton.
Qed.

Lemma update_dims_name arr t j n : name (update_dims S0 t arr j n).1 = name t.
Proof. apply skeleton_name, update_dims_skeleton. Qed.

Lemma update_dims_length arr t j n :
  length (dim (update_dims S0 t arr j n).1) = length (dim t).
Proof. apply skeleton_length, update_dims_skeleton. Qed.

(** Only the axes [j .. j + len(arr) - 1] can change. *)
Lemma update_dims_lookup_outside arr : ∀ t j n k,
  k < j ∨ j + length arr ≤ k →
  dim (update_dims S0 t arr j n).1 !! k = dim t !! k.
Proof.
  induction arr as [|d arr IH]; intros t j n k Hk; simpl; [done|].
  destruct (update_dim S0 t d j n) as [e|t1] eqn:Hd; [done|].
  rewrite IH by (simpl in Hk; lia).
  eapply update_dim_lookup_ne; [done|]. simpl in Hk. lia.
Qed.

Lemma update_dims_app a1 : ∀ a2 t j n,
  update_dims S0 t (a1 ++ a2) j n =
  match update_dims S0 t a1 j n with
  | (t1, Some e) => (t1, Some e)
  | (t1, None) => update_dims S0 t1 a2 (j + length a1) n
  end.
Proof.
  induction a1 as [|d a1 IH]; intros a2 t j n; simpl.
  - by rewrite Nat.add_0_r.
  - destruct (update_dim S0 t d j n) as [e|t1]; [done|].
    rewrite IH. by replace (S j + length a1) with (j + S (length a1)) by lia.
Qed.

(** A loop that ran to its end had an axis for every entry. *)
Lemma update_dims_None_length arr : ∀ t j n t',
  update_dims S0 t arr j n = (t', None) → j + length arr ≤ length (dim t) ∨ arr = [].
Proof.
  induction arr as [|d arr IH]; intros t j n t' H; [by right|left].
  simpl in H. destruct (update_dim S0 t d j n) as [e|t1] eqn:Hd; [done|].
  pose proof (update_dim_length _ _ _ _ _ _ Hd) as Hlen.
  apply update_dim_inr in Hd as (dp & x & Hj & _ & _).
  apply lookup_lt_Some in Hj.
  apply IH in H as [H| ->]; simpl; lia.
Qed.

(** *** The loop over the tensors of one list *)

Context (D : gmap string (list pyval)).

Lemma update_tensors_skeleton l :
  skeleton <$> (update_tensors S0 D l).1 = skeleton <$> l.
Proof.
  induction l as [|t l IH]; simpl; [done|].
  destruct (D !! name t) as [arr|]; [|done].
  pose proof (update_dims_skeleton arr t 0 (name t)) as Ht.
  destruct (update_dims S0 t arr 0 (name t)) as [t' [e|]]; cbn [fst] in *.
  - by rewrite !fmap_cons, Ht.
  - destruct (update_tensors S0 D l) as [l' r]; cbn [fst] in *.
    by rewrite !fmap_cons, Ht, IH.
Qed.

Lemma update_tensors_length l : length (update_tensors S0 D l).1 = length l.
Proof.
  pose proof (update_tensors_skeleton l) as H.
  apply (f_equal length) in H. by rewrite !length_fmap in H.
Qed.

Lemma update_tensors_names l : name <$> (update_tensors S0 D l).1 = name <$> l.
Proof.
  pose proof (update_tensors_skeleton l) as H.
  apply (f_equal (fmap name)) in H.
  by rewrite <-!list_fmap_compose in H.
Qed.

Lemma update_tensors_app l1 l2 :
  update_tensors S0 D (l1 ++ l2) =
  match update_tensors S0 D l1 with
  | (l1', Some e) => (l1' ++ l2, Some e)
  | (l1', None) =>
    let (l2', r) := update_tensors S0 D l2 in (l1' ++ l2', r)
  end.
Proof.
  induction l1 as [|t l1 IH]; simpl.
  - by destruct (update_tensors S0 D l2).
  - destruct (D !! name t) as [arr|]; [|done].
    destruct (update_dims S0 t arr 0 (name t)) as [t' [e|]]; [done|].
    rewrite IH. destruct (update_tensors S0 D l1) as [l1' [e|]]; [done|].
    by destruct (update_tensors S0 D l2).
Qed.

End Loops.

(** ** The call seen from an axis *)

Lemma tensors_of_with_tensors ph m l : tensors_of ph (with_tensors ph m l) = l.
Proof. by destruct ph. Qed.

Lemma with_tensors_twice ph m l l' :
  with_tensors ph (with_tensors ph m l) l' = with_tensors ph m l'.
Proof. by destruct ph. Qed.

Section Cursor.

Context (S0 : gset string) (D : gmap string (list pyval)).

Lemma update_tensors_middle pre t post pre' :
  update_tensors S0 D pre = (pre', None) →
  update_tensors S0 D (pre ++ t :: post) =
  match D !! name t with
  | None => (pre' ++ t :: post, Some (KeyError (name t)))
  | Some arr =>
    match update_dims S0 t arr 0 (name t) with
    | (t', Some e) => (pre' ++ t' :: post, Some e)
    | (t', None) =>
      let (post', r) := update_tensors S0 D post in (pre' ++ t' :: post', r)
    end
  end.
Proof.
  intros Hpre. rewrite update_tensors_app, Hpre. simpl.
  destruct (D !! name t) as [arr|]; [|done].
  destruct (update_dims S0 t arr 0 (name t)) as [t' [e|]]; [done|].
  by destruct (update_tensors S0 D post).
Qed.

Lemma update_dims_middle t a1 d a2 t1 n :
  update_dims S0 t a1 0 n = (t1, None) →
  update_dims S0 t (a1 ++ d :: a2) 0 n =
  match update_dim S0 t1 d (length a1) n with
  | inl e => (t1, Some e)
  | inr t2 => update_dims S0 t2 a2 (S (length a1)) n
  end.
Proof. intros H. by rewrite update_dims_app, H. Qed.

End Cursor.

Section RunLemmas.

Context (check_model : ModelProto → bool).
Context (m : ModelProto) (input_dims output_dims : gmap string (list pyval)).

Local Abbreviation S0 := (collect_dim_params m).
Local Abbreviation the_run := (run check_model m input_dims output_dims).
Local Abbreviation dims_at ph := (dims_for ph input_dims output_dims).

(** The loop of a phase decides the tensors of that phase in the final
    model, and an exception that leaves the loop leaves the call. *)
Lemma run_phase ph m1 l' r :
  loop_start m input_dims ph = Some m1 →
  update_tensors S0 (dims_for ph input_dims output_dims) (tensors_of ph m)
    = (l', r) →
  tensors_of ph the_run.1 = l'
  ∧ (∀ e, r = Some e → the_run = (with_tensors ph m1 l', Some e)).
Proof.
  destruct ph; simpl; unfold run.
  - intros [= <-] ->. destruct r as [e|]; simpl.
    + split; [done|]. by intros ? [= ->].
    + destruct (update_tensors S0 output_dims (output (graph m))) as [o' [e|]];
        simpl; [done|].
      by destruct (check_model _).
  - destruct (update_tensors S0 input_dims (input (graph m))) as [i' [e|]];
      [done|].
    intros [= <-]. simpl. intros ->. destruct r as [e|]; simpl.
    + split; [done|]. by intros ? [= ->].
    + by destruct (check_model _).
Qed.

Lemma loop_start_tensors ph m1 :
  loop_start m input_dims ph = Some m1 → tensors_of ph m1 = tensors_of ph m.
Proof.
  destruct ph; simpl; [by intros [= <-]|].
  destruct (update_tensors _ _ _) as [i' [e|]]; [done|]. by intros [= <-].
Qed.

(** The tensor under the cursor is still as the call found it. *)
Lemma at_tensor_Some ph i m_now t :
  at_tensor m input_dims output_dims ph i = Some (m_now, t) →
  tensors_of ph m !! i = Some t ∧ tensors_of ph m_now !! i = Some t.
Proof.
  unfold at_tensor. intros H.
  destruct (loop_start m input_dims ph) as [m1|] eqn:Hm1; [|done].
  destruct (tensors_of ph m !! i) as [t0|] eqn:Ht; [|done]. simpl in H.
  pose proof (update_tensors_length S0 (dims_for ph input_dims output_dims)
                (take i (tensors_of ph m))) as Hlen.
  destruct (update_tensors _ _ (take i _)) as [pre' [e|]]; [done|].
  simplify_eq. split; [done|].
  rewrite tensors_of_with_tensors. simpl in Hlen.
  apply lookup_lt_Some in Ht as Hi.
  rewrite length_take_le in Hlen by lia.
  rewrite lookup_app_r by lia. rewrite Hlen, Nat.sub_diag.
  rewrite lookup_drop. by rewrite Nat.add_0_r.
Qed.

(** A name without an entry ends the call with [KeyError], the tensor
    untouched. *)
Lemma at_tensor_missing ph i m_now t :
  at_tensor m input_dims output_dims ph i = Some (m_now, t) →
  dims_for ph input_dims output_dims !! name t = None →
  the_run = (m_now, Some (KeyError (name t))).
Proof.
  unfold at_tensor. intros H Hnone.
  destruct (loop_start m input_dims ph) as [m1|] eqn:Hm1; [|done].
  destruct (tensors_of ph m !! i) as [t0|] eqn:Ht; [|done]. simpl in H.
  destruct (update_tensors _ _ (take i _)) as [pre' [e|]] eqn:Hpre; [done|].
  simplify_eq.
  eapply run_phase; [done| |done].
  rewrite <-(take_drop_middle _ _ _ Ht) at 1.
  rewrite (update_tensors_middle _ _ _ _ _ _ Hpre), Hnone.
  by rewrite (drop_S _ _ _ Ht).
Qed.

Lemma at_axis_inv ph i j m_now t1 d :
  at_axis m input_dims output_dims ph i j = Some (m_now, t1, d) →
  ∃ m1 t arr pre',
    loop_start m input_dims ph = Some m1
    ∧ tensors_of ph m !! i = Some t
    ∧ update_tensors S0 (dims_at ph) (take i (tensors_of ph m)) = (pre', None)
    ∧ dims_at ph !! name t = Some arr
    ∧ arr !! j = Some d
    ∧ update_dims S0 t (take j arr) 0 (name t) = (t1, None)
    ∧ m_now = with_tensors ph m1 (pre' ++ t1 :: drop (S i) (tensors_of ph m)).
Proof.
  unfold at_axis, at_tensor. intros H.
  destruct (loop_start m input_dims ph) as [m1|] eqn:Hm1; [|done].
  destruct (tensors_of ph m !! i) as [t|] eqn:Ht; [|done]. simpl in H.
  pose proof (update_tensors_length S0 (dims_at ph)
                (take i (tensors_of ph m))) as Hlen.
  destruct (update_tensors _ _ (take i _)) as [pre' [e|]] eqn:Hpre; [done|].
  simpl in H, Hlen.
  destruct (dims_at ph !! name t) as [arr|] eqn:Harr; [|done]. simpl in H.
  destruct (arr !! j) as [d0|] eqn:Hd; [|done]. simpl in H.
  destruct (update_dims S0 t (take j arr) 0 (name t)) as [t1' [e|]] eqn:Hdims;
    [done|].
  simplify_eq. exists m1, t, arr, pre'. repeat (split; [done|]).
  rewrite with_tensors_twice, tensors_of_with_tensors. f_equal.
  apply lookup_lt_Some in Ht as Hi. rewrite length_take_le in Hlen by lia.
  rewrite (drop_S _ _ _ Ht).
  rewrite insert_app_r_alt by lia. by rewrite Hlen, Nat.sub_diag.
Qed.

(** The axis under the cursor still has the value the call found there, and
    the cursor's tensor is the [i]-th tensor of the current model. *)
Lemma at_axis_Some ph i j m_now t1 d :
  at_axis m input_dims output_dims ph i j = Some (m_now, t1, d) →
  ∃ t arr,
    tensors_of ph m !! i = Some t
    ∧ dims_at ph !! name t = Some arr
    ∧ arr !! j = Some d
    ∧ name t1 = name t
    ∧ dim t1 !! j = dim t !! j
    ∧ tensors_of ph m_now !! i = Some t1.
Proof.
  intros (m1 & t & arr & pre' & Hm1 & Ht & Hpre & Harr & Hd & Hdims & ->)
    %at_axis_inv.
  exists t, arr. repeat (split; [done|]).
  pose proof (update_dims_name S0 (take j arr) t 0 (name t)) as Hn.
  pose proof (update_dims_lookup_outside S0 (take j arr) t 0 (name t) j) as Hj.
  rewrite Hdims in Hn, Hj. simpl in Hn, Hj.
  split; [done|]. split.
  - apply Hj. right. rewrite length_take. lia.
  - rewrite tensors_of_with_tensors.
    pose proof (update_tensors_length S0 (dims_at ph)
                  (take i (tensors_of ph m))) as Hlen.
    rewrite Hpre in Hlen. simpl in Hlen.
    apply lookup_lt_Some in Ht. rewrite length_take_le in Hlen by lia.
    rewrite lookup_app_r by lia. by rewrite Hlen, Nat.sub_diag.
Qed.

(** The loop of the phase, seen from the cursor. *)
Lemma at_axis_loop ph i j m_now t1 d :
  at_axis m input_dims output_dims ph i j = Some (m_now, t1, d) →
  ∃ m1 arr pre',
    loop_start m input_dims ph = Some m1
    ∧ length pre' = i
    ∧ m_now = with_tensors ph m1 (pre' ++ t1 :: drop (S i) (tensors_of ph m))
    ∧ update_tensors S0 (dims_at ph) (tensors_of ph m) =
      match update_dim S0 t1 d j (name t1) with
      | inl e => (pre' ++ t1 :: drop (S i) (tensors_of ph m), Some e)
      | inr t2 =>
        match update_dims S0 t2 (drop (S j) arr) (S j) (name t1) with
        | (t3, Some e) => (pre' ++ t3 :: drop (S i) (tensors_of ph m), Some e)
        | (t3, None) =>
          let (post', r) :=
            update_tensors S0 (dims_at ph) (drop (S i) (tensors_of ph m)) in
          (pre' ++ t3 :: post', r)
        end
      end.
Proof.
  intros (m1 & t & arr & pre' & Hm1 & Ht & Hpre & Harr & Hd & Hdims & ->)
    %at_axis_inv.
  exists m1, arr, pre'. split; [done|].
  pose proof (update_tensors_length S0 (dims_at ph)
                (take i (tensors_of ph m))) as Hlen.
  rewrite Hpre in Hlen. simpl in Hlen.
  apply lookup_lt_Some in Ht as Hi. rewrite length_take_le in Hlen by lia.
  split; [done|]. split; [done|].
  pose proof (update_dims_name S0 (take j arr) t 0 (name t)) as Hn.
  rewrite Hdims in Hn. simpl in Hn. rewrite Hn.
  rewrite <-(take_drop_middle _ _ _ Ht) at 1.
  rewrite (update_tensors_middle _ _ _ _ _ _ Hpre), Harr.
  rewrite <-(take_drop_middle _ _ _ Hd) at 1.
  rewrite (update_dims_middle _ _ _ _ _ _ _ Hdims).
  apply lookup_lt_Some in Hd. rewrite length_take_le by lia.
  destruct (update_dim S0 t1 d j (name t)) as [e|t2]; [done|].
  by destruct (update_dims S0 t2 (drop (S j) arr) (S j) (name t)) as [t3 [e|]].
Qed.

(** An exception of [update_dim] leaves the call, with the model as it was
    when [update_dim] was called. *)
Lemma at_axis_raise ph i j m_now t1 d e :
  at_axis m input_dims output_dims ph i j = Some (m_now, t1, d) →
  update_dim S0 t1 d j (name t1) = inl e →
  the_run = (m_now, Some e).
Proof.
  intros (m1 & arr & pre' & Hm1 & Hlen & -> & Hloop)%at_axis_loop Hraise.
  rewrite Hraise in Hloop. by eapply run_phase.
Qed.

(** What a successful [update_dim] wrote to axis [j] is what the model holds
    there when the call ends, however it ends. *)
Lemma at_axis_stays ph i j m_now t1 d t2 :
  at_axis m input_dims output_dims ph i j = Some (m_now, t1, d) →
  update_dim S0 t1 d j (name t1) = inr t2 →
  ∃ t', tensors_of ph the_run.1 !! i = Some t' ∧ dim t' !! j = dim t2 !! j.
Proof.
  intros (m1 & arr & pre' & Hm1 & Hlen & -> & Hloop)%at_axis_loop Hok.
  rewrite Hok in Hloop.
  pose proof (update_dims_lookup_outside S0 (drop (S j) arr) t2 (S j) (name t1) j)
    as Hj.
  destruct (update_dims S0 t2 (drop (S j) arr) (S j) (name t1)) as [t3 r3].
  simpl in Hj. exists t3. split; [|apply Hj; lia].
  destruct r3 as [e|].
  - destruct (run_phase _ _ _ _ Hm1 Hloop) as [-> _].
    rewrite lookup_app_r by lia. by rewrite Hlen, Nat.sub_diag.
  - destruct (update_tensors S0 (dims_at ph) (drop (S i) (tensors_of ph m)))
      as [post' r].
    destruct (run_phase _ _ _ _ Hm1 Hloop) as [-> _].
    rewrite lookup_app_r by lia. by rewrite Hlen, Nat.sub_diag.
Qed.

(** A call gets to every axis that has an entry, unless it has failed before
    and left that axis alone. *)
Lemma at_axis_or_failed ph i j t arr d :
  tensors_of ph m !! i = Some t →
  dims_at ph !! name t = Some arr →
  arr !! j = Some d →
  (∃ m_now t_now, at_axis m input_dims output_dims ph i j = Some (m_now, t_now, d))
  ∨ (∃ e, the_run.2 = Some e ∧ axis_of the_run.1 ph i j = dim t !! j).
Proof.
  intros Ht Harr Hd. unfold at_axis, at_tensor, axis_of.
  destruct (loop_start m input_dims ph) as [m1|] eqn:Hm1.
  2:{ right. destruct ph; [done|]. simpl in *. unfold run.
      destruct (update_tensors S0 input_dims (input (graph m)))
        as [inputs' [e|]]; [|done].
      exists e. simpl. by rewrite Ht. }
  rewrite Ht. simpl.
  pose proof (update_tensors_length S0 (dims_at ph) (take i (tensors_of ph m)))
    as Hlen.
  apply lookup_lt_Some in Ht as Hi. rewrite length_take_le in Hlen by lia.
  destruct (update_tensors S0 (dims_at ph) (take i (tensors_of ph m)))
    as [pre' [e|]] eqn:Hpre; simpl in Hlen.
  { right. exists e.
    assert (update_tensors S0 (dims_at ph) (tensors_of ph m)
            = (pre' ++ drop i (tensors_of ph m), Some e)) as Hloop.
    { rewrite <-(take_drop i (tensors_of ph m)) at 1.
      by rewrite update_tensors_app, Hpre. }
    destruct (run_phase _ _ _ _ Hm1 Hloop) as [Htens Hraise].
    rewrite (Hraise e eq_refl). simpl. split; [done|].
    rewrite tensors_of_with_tensors, lookup_app_r by lia.
    rewrite Hlen, Nat.sub_diag, lookup_drop, Nat.add_0_r, Ht. done. }
  simpl. rewrite Harr. simpl. rewrite Hd. simpl.
  pose proof (update_dims_lookup_outside S0 (take j arr) t 0 (name t) j) as Hj.
  destruct (update_dims S0 t (take j arr) 0 (name t)) as [t1 [e|]] eqn:Hdims.
  2:{ left. by eexists _, _. }
  right. exists e.
  assert (update_tensors S0 (dims_at ph) (tensors_of ph m)
          = (pre' ++ t1 :: drop (S i) (tensors_of ph m), Some e)) as Hloop.
  { rewrite <-(take_drop_middle _ _ _ Ht) at 1.
    rewrite (update_tensors_middle _ _ _ _ _ _ Hpre), Harr.
    rewrite <-(take_drop j arr) at 1. by rewrite update_dims_app, Hdims. }
  destruct (run_phase _ _ _ _ Hm1 Hloop) as [Htens Hraise].
  rewrite (Hraise e eq_refl). simpl. split; [done|].
  rewrite tensors_of_with_tensors, lookup_app_r by lia.
  rewrite Hlen, Nat.sub_diag. simpl. apply Hj. right.
  rewrite length_take. lia.
Qed.

End RunLemmas.

(** ** The set of symbolic names *)

Lemma elem_of_add_dim_params s shape : ∀ acc,
  s ∈ add_dim_params acc shape ↔ s ∈ acc ∨ ∃ d, d ∈ shape ∧ value d = dim_param s.
Proof.
  unfold add_dim_params.
  induction shape as [|d shape IH]; intros acc; simpl.
  - split; [by left|]. intros [?|(d & Hd & _)]; [done|]. by apply elem_of_nil in Hd.
  - rewrite IH. unfold HasField_dim_param, get_dim_param.
    split.
    + intros [H|(d' & Hd' & Hv)].
      * destruct (value d) as [|v|s'] eqn:Hval; try by left.
        apply elem_of_union in H as [->%elem_of_singleton|H]; [|by left].
        right. exists d. split; [left|done].
      * right. exists d'. split; [by right|done].
    + intros [H|(d' & Hd' & Hv)].
      * left. destruct (value d); try done. apply elem_of_union. by right.
      * apply elem_of_cons in Hd' as [->|Hd'].
        -- left. rewrite Hv. apply elem_of_union. left. by apply elem_of_singleton.
        -- right. by exists d'.
Qed.

Lemma elem_of_init_dim_param_set s infos : ∀ acc,
  s ∈ init_dim_param_set acc infos ↔ s ∈ acc ∨ dim_param_in infos s.
Proof.
  unfold init_dim_param_set, dim_param_in.
  induction infos as [|t infos IH]; intros acc; simpl.
  - split; [by left|]. intros [?|(t & d & Ht & _)]; [done|].
    by apply elem_of_nil in Ht.
  - rewrite IH, elem_of_add_dim_params. split.
    + intros [[H|(d & Hd & Hv)]|(t' & d & Ht' & Hd & Hv)].
      * by left.
      * right. exists t, d. split; [left|done].
      * right. exists t', d. split; [by right|done].
    + intros [H|(t' & d & Ht' & Hd & Hv)].
      * by left; left.
      * apply elem_of_cons in Ht' as [->|Ht'].
        -- left; right. by exists d.
        -- right. by exists t', d.
Qed.

(** The set built at the start of the call holds the symbolic names of the
    inputs, the outputs and the value infos of the model, and nothing else. *)
Lemma elem_of_collect_dim_params s m :
  s ∈ collect_dim_params m ↔
  dim_param_in (input (graph m) ++ output (graph m) ++ value_info (graph m)) s.
Proof.
  unfold collect_dim_params. rewrite !elem_of_init_dim_param_set.
  unfold dim_param_in. setoid_rewrite elem_of_app. setoid_rewrite elem_of_app.
  split.
  - intros [[[H|H]|H]|H]; [by apply not_elem_of_empty in H|..];
      destruct H as (t & d & ? & ? & ?); exists t, d; tauto.
  - intros (t & d & [?|[?|?]] & ? & ?);
      [left; left; right|left; right|right]; by exists t, d.
Qed.

(** ** The call *)

Lemma call_unfold check_model l input_dims output_dims h :
  update_inputs_outputs_dims check_model l input_dims output_dims h =
  (write h l (run check_model (h l) input_dims output_dims).1,
   match (run check_model (h l) input_dims output_dims).2 with
   | Some e => inl e
   | None => inr l
   end).
Proof.
  unfold update_inputs_outputs_dims.
  by destruct (run check_model (h l) input_dims output_dims).
Qed.

Lemma call_raise check_model l input_dims output_dims h m' e :
  run check_model (h l) input_dims output_dims = (m', Some e) →
  update_inputs_outputs_dims check_model l input_dims output_dims h
    = (write h l m', inl e).
Proof. intros H. by rewrite call_unfold, H. Qed.


Lemma write_same h l m : write h l m l = m.
Proof. unfold write. by rewrite decide_True. Qed.

Lemma write_other h l m l' : l' ≠ l → write h l m l' = h l'.
Proof. intros. unfold write. by rewrite decide_False. Qed.

Lemma call_model check_model l input_dims output_dims h :
  (update_inputs_outputs_dims check_model l input_dims output_dims h).1 l
  = (run check_model (h l) input_dims output_dims).1.
Proof. rewrite call_unfold. simpl. apply write_same. Qed.

(** ** The three branches of [update_dim] *)

Section Branches.

Context (S0 : gset string).
Context (t : ValueInfoProto) (j : nat) (n : string) (dp : Dimension).
Hypothesis Haxis : dim t !! j = Some dp.

Lemma update_dim_contradicts d v :
  isinstance_int d = true → (0 ≤ int_of d)%Z →
  value dp = dim_value v → v ≠ int_of d →
  update_dim S0 t d j n = inl (ValueError_contradicts d j n v).
Proof.
  intros Hint Hpos Hv Hne. unfold update_dim. rewrite Haxis, Hint.
  rewrite bool_decide_true by done.
  unfold HasField_dim_value, get_dim_value. rewrite Hv. simpl.
  by rewrite bool_decide_true.
Qed.

Lemma in_int64_nonneg v : (0 ≤ v)%Z → in_int64 v = bool_decide (v ≤ int64_max)%Z.
Proof.
  intros Hv. unfold in_int64. rewrite bool_decide_true; [done|].
  assert (int64_min < 0)%Z by reflexivity. lia.
Qed.

Lemma update_dim_fixed d :
  isinstance_int d = true → (0 ≤ int_of d)%Z →
  (∀ v, value dp = dim_value v → v = int_of d) →
  (int_of d ≤ int64_max)%Z →
  update_dim S0 t d j n = inr (store_dim t j (set_dim_value dp (int_of d))).
Proof.
  intros Hint Hpos Hv Hmax. unfold update_dim, assign_dim_value.
  rewrite Haxis, Hint.
  rewrite bool_decide_true by done.
  rewrite (in_int64_nonneg _ Hpos), (bool_decide_true _ Hmax).
  unfold HasField_dim_value, get_dim_value.
  destruct (value dp) as [|v|s] eqn:Hval; simpl; try done.
  rewrite bool_decide_false; [by simpl|]. intros Hne. by apply Hne, Hv.
Qed.

Lemma update_dim_restated d :
  isinstance_int d = true → (0 ≤ int_of d)%Z →
  value dp = dim_value (int_of d) →
  (int_of d ≤ int64_max)%Z →
  update_dim S0 t d j n = inr t.
Proof.
  intros Hint Hpos Hv Hmax. rewrite update_dim_fixed; [|done|done| |done].
  - f_equal. apply store_dim_same. rewrite Haxis. f_equal.
    destruct dp as [val den]; simpl in *. unfold set_dim_value; simpl.
    by rewrite Hv.
  - intros v Hv'. congruence.
Qed.

(** An integer that does not fit the field, for an axis without a fixed
    value to contradict: the setter refuses it. *)
Lemma update_dim_too_large d :
  isinstance_int d = true → (0 ≤ int_of d)%Z →
  (∀ v, value dp = dim_value v → v = int_of d) →
  (int64_max < int_of d)%Z →
  update_dim S0 t d j n = inl (ValueError_out_of_range (int_of d)).
Proof.
  intros Hint Hpos Hv Hmax. unfold update_dim, assign_dim_value.
  rewrite Haxis, Hint.
  rewrite bool_decide_true by done.
  rewrite (in_int64_nonneg _ Hpos).
  rewrite (bool_decide_false (int_of d ≤ int64_max)%Z) by lia.
  unfold HasField_dim_value, get_dim_value.
  destruct (value dp) as [|v|s] eqn:Hval; simpl; try done.
  rewrite bool_decide_false; [by simpl|]. intros Hne. by apply Hne, Hv.
Qed.

Lemma update_dim_collision d :
  isinstance_int d = true → (int_of d < 0)%Z →
  generated_dim_param n j ∈ S0 →
  update_dim S0 t d j n = inl (ValueError_not_unique j n).
Proof.
  intros Hint Hneg Hin. unfold update_dim. rewrite Haxis, Hint.
  rewrite bool_decide_false by lia. simpl. by rewrite bool_decide_true.
Qed.

Lemma update_dim_generated d :
  isinstance_int d = true → (int_of d < 0)%Z →
  generated_dim_param n j ∉ S0 →
  update_dim S0 t d j n
  = inr (store_dim t j (set_dim_param dp (generated_dim_param n j))).
Proof.
  intros Hint Hneg Hin. unfold update_dim. rewrite Haxis, Hint.
  rewrite bool_decide_false by lia. simpl. by rewrite bool_decide_false.
Qed.


Lemma update_dim_other ty :
  update_dim S0 t (PyOther ty) j n = inl (ValueError_type ty).
Proof. unfold update_dim. by rewrite Haxis. Qed.

Lemma store_dim_lookup x : dim (store_dim t j x) !! j = Some x.
Proof.
  simpl. apply list_lookup_insert_eq. by eapply lookup_lt_Some.
Qed.

End Branches.

(** ** Lifting the branches to the call *)

Lemma call_axis_of check_model l input_dims output_dims h ph i j :
  axis_of ((update_inputs_outputs_dims check_model l input_dims output_dims h).1 l)
          ph i j
  = axis_of (run check_model (h l) input_dims output_dims).1 ph i j.
Proof. by rewrite call_model. Qed.

Section CallAtAxis.

Context (check_model : ModelProto → bool) (h : store) (l : loc).
Context (input_dims output_dims : gmap string (list pyval)).
Context (ph : phase) (i j : nat).
Context (t : ValueInfoProto) (arr : list pyval) (d : pyval) (dp : Dimension).
Hypothesis Ht : tensors_of ph (h l) !! i = Some t.
Hypothesis Harr : dims_for ph input_dims output_dims !! name t = Some arr.
Hypothesis Hd : arr !! j = Some d.
Hypothesis Hdp : dim t !! j = Some dp.

Local Abbreviation call :=
  (update_inputs_outputs_dims check_model l input_dims output_dims h).
Local Abbreviation names := (collect_dim_params (h l)).

(** When the call gets to the axis, the tensor has the name, and the axis the
    descriptor, that the call found. *)
Lemma axis_current m_now t_now :
  at_axis (h l) input_dims output_dims ph i j = Some (m_now, t_now, d) →
  name t_now = name t ∧ dim t_now !! j = Some dp
  ∧ tensors_of ph m_now !! i = Some t_now.
Proof.
  intros (t0 & arr0 & Ht0 & _ & _ & Hn & Hj & Hnow)%at_axis_Some.
  assert (t0 = t) as -> by congruence. by rewrite Hj.
Qed.

(** An update that is bound to raise: the call fails, with that exception
    when it gets to the axis, and the axis keeps what it held. *)
Lemma axis_fails e :
  (∀ t_now, name t_now = name t → dim t_now !! j = Some dp →
            update_dim names t_now d j (name t) = inl e) →
  (∃ e', call.2 = inl e')
  ∧ axis_of (call.1 l) ph i j = Some dp
  ∧ ∀ m_now t_now,
      at_axis (h l) input_dims output_dims ph i j = Some (m_now, t_now, d) →
      call = (write h l m_now, inl e).
Proof.
  intros Hraise.
  assert (∀ m_now t_now,
            at_axis (h l) input_dims output_dims ph i j = Some (m_now, t_now, d) →
            call = (write h l m_now, inl e)) as Hreached.
  { intros m_now t_now Hat.
    destruct (axis_current _ _ Hat) as (Hn & Hj & _).
    eapply call_raise, at_axis_raise; [done|]. rewrite Hn. by apply Hraise. }
  split; [|split; [|done]].
  - destruct (at_axis_or_failed check_model _ _ _ _ _ _ _ _ _ Ht Harr Hd)
      as [(m_now & t_now & Hat)|(e' & He' & _)].
    + exists e. by rewrite (Hreached _ _ Hat).
    + exists e'. rewrite call_unfold. simpl. by rewrite He'.
  - destruct (at_axis_or_failed check_model _ _ _ _ _ _ _ _ _ Ht Harr Hd)
      as [(m_now & t_now & Hat)|(e' & _ & Hsame)].
    + destruct (axis_current _ _ Hat) as (_ & Hj & Hnow).
      rewrite (Hreached _ _ Hat). simpl. rewrite write_same.
      unfold axis_of. by rewrite Hnow.
    + by rewrite call_axis_of, Hsame.
Qed.

(** An update that is bound to write [x]: the axis holds [x] at the end of
    every call that gets to it, and so of every call that returns. *)
Lemma axis_written x :
  (∀ t_now, name t_now = name t → dim t_now !! j = Some dp →
            update_dim names t_now d j (name t) = inr (store_dim t_now j x)) →
  (∀ m_now t_now,
     at_axis (h l) input_dims output_dims ph i j = Some (m_now, t_now, d) →
     update_dim names t_now d j (name t) = inr (store_dim t_now j x)
     ∧ axis_of (call.1 l) ph i j = Some x)
  ∧ (∀ l', call.2 = inr l' → axis_of (call.1 l) ph i j = Some x).
Proof.
  intros Hwrite.
  assert (∀ m_now t_now,
            at_axis (h l) input_dims output_dims ph i j = Some (m_now, t_now, d) →
            update_dim names t_now d j (name t) = inr (store_dim t_now j x)
            ∧ axis_of (call.1 l) ph i j = Some x) as Hreached.
  { intros m_now t_now Hat.
    destruct (axis_current _ _ Hat) as (Hn & Hj & _).
    pose proof (Hwrite t_now Hn Hj) as Hupd. split; [done|].
    rewrite <-Hn in Hupd.
    destruct (at_axis_stays check_model _ _ _ _ _ _ _ _ _ _ Hat Hupd)
      as (t' & Ht' & Hj').
    rewrite call_axis_of. unfold axis_of. rewrite Ht'. simpl. rewrite Hj'.
    by eapply store_dim_lookup. }
  split; [done|].
  intros l' Hret.
  destruct (at_axis_or_failed check_model _ _ _ _ _ _ _ _ _ Ht Harr Hd)
    as [(m_now & t_now & Hat)|(e' & He' & _)].
  - by eapply Hreached.
  - rewrite call_unfold in Hret. simpl in Hret. by rewrite He' in Hret.
Qed.

End CallAtAxis.

(** A call that returns had an axis for every entry. *)
Lemma returned_axis_exists check_model h l input_dims output_dims ph i j t arr d l' :
  (update_inputs_outputs_dims check_model l input_dims output_dims h).2 = inr l' →
  tensors_of ph (h l) !! i = Some t →
  dims_for ph input_dims output_dims !! name t = Some arr →
  arr !! j = Some d →
  is_Some (dim t !! j).
Proof.
  intros Hret Ht Harr Hd.
  destruct (dim t !! j) as [dp|] eqn:Hdp; [by eexists|exfalso].
  destruct (at_axis_or_failed check_model _ _ _ _ _ _ _ _ _ Ht Harr Hd)
    as [(m_now & t_now & Hat)|(e' & He' & _)].
  - destruct (at_axis_Some _ _ _ _ _ _ _ _ _ Hat)
      as (t0 & arr0 & Ht0 & _ & _ & _ & Hj & _).
    assert (t0 = t) as -> by congruence. rewrite Hdp in Hj.
    pose proof (update_dim_out_of_range (collect_dim_params (h l)) t_now d j
                  (name t_now) Hj) as Hraise.
    pose proof (call_raise check_model l input_dims output_dims h _ _
                  (at_axis_raise check_model _ _ _ _ _ _ _ _ _ _ Hat Hraise)) as Hc.
    by rewrite Hc in Hret.
  - rewrite call_unfold in Hret. simpl in Hret. by rewrite He' in Hret.
Qed.

(** After a call that returns, an axis with a negative target holds the name
    generated for it. *)
Lemma returned_axis_generated check_model h l input_dims output_dims ph i j t arr
    z l' :
  (update_inputs_outputs_dims check_model l input_dims output_dims h).2 = inr l' →
  tensors_of ph (h l) !! i = Some t →
  dims_for ph input_dims output_dims !! name t = Some arr →
  arr !! j = Some (PyInt z) →
  (z < 0)%Z →
  ∃ dp,
    dim t !! j = Some dp
    ∧ axis_of
        ((update_inputs_outputs_dims check_model l input_dims output_dims h).1 l)
        ph i j = Some (set_dim_param dp (generated_dim_param (name t) j)).
Proof.
  intros Hret Ht Harr Hd Hz.
  destruct (returned_axis_exists _ _ _ _ _ _ _ _ _ _ _ _ Hret Ht Harr Hd)
    as [dp Hdp].
  exists dp. split; [done|].
  destruct (decide (generated_dim_param (name t) j ∈ collect_dim_params (h l)))
    as [Hin|Hfresh].
  - destruct (axis_fails check_model h l input_dims output_dims ph i j t arr
                (PyInt z) dp Ht Harr Hd Hdp (ValueError_not_unique j (name t)))
      as ([e He] & _).
    { intros t_now _ Hj. by apply (update_dim_collision _ _ _ _ dp). }
    by rewrite He in Hret.
  - destruct (axis_written check_model h l input_dims output_dims ph i j t arr
                (PyInt z) dp Ht Harr Hd Hdp
                (set_dim_param dp (generated_dim_param (name t) j)))
      as [_ Hreturned].
    { intros t_now _ Hj. by apply (update_dim_generated _ _ _ _ dp). }
    by eapply Hreturned.
Qed.

(** ** The axis-update rule *)

(** C1 as the design document has it, every non-negative integer being
    written to an axis that holds no other fixed value, does not hold for an
    integer that does not fit the [int64] field: axis 1 of [x] holds the
    symbolic name ["n"], its target is [2 ^ 63], and the call ends with the
    [ValueError] of the setter, the axis still holding ["n"]. *)
Lemma fixed_value_rule_counterexample :
  tensors_of Inputs Ex.m !! 0 = Some Ex.x
  ∧ dims_for Inputs {[ "x" := [PyInt 3; PyInt 9223372036854775808] ]}
      {[ "y" := [PyStr "n"; PyInt 5] ]} !! name Ex.x
    = Some [PyInt 3; PyInt 9223372036854775808]
  ∧ (0 ≤ 9223372036854775808)%Z
  ∧ dim Ex.x !! 1 = Some (Ex.symbolic "n")
  ∧ update_inputs_outputs_dims Ex.accept 0
      {[ "x" := [PyInt 3; PyInt 9223372036854775808] ]}
      {[ "y" := [PyStr "n"; PyInt 5] ]} (Ex.only Ex.m)
    = (write (Ex.only Ex.m) 0 Ex.m,
       inl (ValueError_out_of_range 9223372036854775808))
  ∧ axis_of
      ((update_inputs_outputs_dims Ex.accept 0
          {[ "x" := [PyInt 3; PyInt 9223372036854775808] ]}
          {[ "y" := [PyStr "n"; PyInt 5] ]} (Ex.only Ex.m)).1 0) Inputs 0 1
    = Some (Ex.symbolic "n")
  ∧ Ex.symbolic "n" ≠ Ex.fixed 9223372036854775808.
Proof.
  split; [reflexivity|]. split; [reflexivity|]. split; [done|].
  split; [reflexivity|]. split; [vm_compute; reflexivity|].
  split; [vm_compute; reflexivity|]. discriminate.
Qed.

(** C1, as the code has it.  Axis [j] of an input or output tensor has a
    non-negative integer [z] as target and holds [dp].
    - If [dp] is a fixed value [v] other than [z], the call fails and the
      axis keeps [dp]; the exception is the contradiction [ValueError] of
      that axis when the call gets to it.
    - Otherwise, if [z] fits the [int64] field, [update_dim] makes the
      [oneof] of the axis [dim_value z] and leaves its denotation; that is
      what the model holds there after every call that gets to the axis, and
      so after every call that returns.
    - If [dp] is the fixed value [z] already, and [z] fits the field,
      [update_dim] leaves the tensor as it is and the axis holds [dp] after
      the call, however it ends.
    - Otherwise, if [z] does not fit the field, the call fails and the axis
      keeps [dp]; the exception is the [ValueError] of the setter when the
      call gets to the axis. *)
Theorem fixed_value_rule (check_model : ModelProto → bool) (h : store) (l : loc)
    (input_dims output_dims : gmap string (list pyval))
    (ph : phase) (i j : nat) (t : ValueInfoProto) (arr : list pyval)
    (z : Z) (dp : Dimension) :
  tensors_of ph (h l) !! i = Some t →
  dims_for ph input_dims output_dims !! name t = Some arr →
  arr !! j = Some (PyInt z) →
  (0 ≤ z)%Z →
  dim t !! j = Some dp →
  (∀ v, value dp = dim_value v → v ≠ z →
     (∃ e, (update_inputs_outputs_dims check_model l input_dims output_dims h).2
           = inl e)
     ∧ axis_of
         ((update_inputs_outputs_dims check_model l input_dims output_dims h).1 l)
         ph i j = Some dp
     ∧ ∀ m_now t_now,
         at_axis (h l) input_dims output_dims ph i j
           = Some (m_now, t_now, PyInt z) →
         update_inputs_outputs_dims check_model l input_dims output_dims h
         = (write h l m_now, inl (ValueError_contradicts (PyInt z) j (name t) v))
         ∧ kind_of (ValueError_contradicts (PyInt z) j (name t) v)
           = ContradictionFailure)
  ∧ ((∀ v, value dp = dim_value v → v = z) →
     (z < 2 ^ 63)%Z →
     (∀ m_now t_now,
        at_axis (h l) input_dims output_dims ph i j
          = Some (m_now, t_now, PyInt z) →
        update_dim (collect_dim_params (h l)) t_now (PyInt z) j (name t)
          = inr (store_dim t_now j
                   {| value := dim_value z; denotation := denotation dp |})
        ∧ axis_of
            ((update_inputs_outputs_dims check_model l input_dims output_dims h).1 l)
            ph i j
          = Some {| value := dim_value z; denotation := denotation dp |})
     ∧ (∀ l',
          (update_inputs_outputs_dims check_model l input_dims output_dims h).2
            = inr l' →
          axis_of
            ((update_inputs_outputs_dims check_model l input_dims output_dims h).1 l)
            ph i j
          = Some {| value := dim_value z; denotation := denotation dp |}))
  ∧ (value dp = dim_value z →
     (z < 2 ^ 63)%Z →
     axis_of
       ((update_inputs_outputs_dims check_model l input_dims output_dims h).1 l)
       ph i j = Some dp
     ∧ ∀ m_now t_now,
         at_axis (h l) input_dims output_dims ph i j
           = Some (m_now, t_now, PyInt z) →
         update_dim (collect_dim_params (h l)) t_now (PyInt z) j (name t)
           = inr t_now)
  ∧ ((∀ v, value dp = dim_value v → v = z) →
     (2 ^ 63 ≤ z)%Z →
     (∃ e, (update_inputs_outputs_dims check_model l input_dims output_dims h).2
           = inl e)
     ∧ axis_of
         ((update_inputs_outputs_dims check_model l input_dims output_dims h).1 l)
         ph i j = Some dp
     ∧ ∀ m_now t_now,
         at_axis (h l) input_dims output_dims ph i j
           = Some (m_now, t_now, PyInt z) →
         update_inputs_outputs_dims check_model l input_dims output_dims h
         = (write h l m_now, inl (ValueError_out_of_range z))
         ∧ kind_of (ValueError_out_of_range z) = ValueRangeFailure).
Proof.
  intros Ht Harr Hd Hz Hdp.
  assert (int64_max = 2 ^ 63 - 1)%Z as Hmax by reflexivity.
  split; [|split; [|split]].
  - intros v Hv Hne.
    destruct (axis_fails check_model h l input_dims output_dims ph i j t arr
                (PyInt z) dp Ht Harr Hd Hdp
                (ValueError_contradicts (PyInt z) j (name t) v))
      as (Hfail & Hkeep & Hreached).
    { intros t_now _ Hj. by apply (update_dim_contradicts _ _ _ _ dp). }
    split; [done|]. split; [done|].
    intros m_now t_now Hat. split; [by eapply Hreached|done].
  - intros Hv Hfit.
    apply (axis_written check_model h l input_dims output_dims ph i j t arr
             (PyInt z) dp Ht Harr Hd Hdp
             {| value := dim_value z; denotation := denotation dp |}).
    intros t_now _ Hj.
    apply (update_dim_fixed _ _ _ _ dp Hj (PyInt z)); [done..|simpl; lia].
  - intros Hv Hfit.
    assert ({| value := dim_value z; denotation := denotation dp |} = dp) as Hsame.
    { destruct dp as [val den]. simpl in Hv. by rewrite Hv. }
    assert (∀ t_now, name t_now = name t → dim t_now !! j = Some dp →
                     update_dim (collect_dim_params (h l)) t_now (PyInt z) j
                       (name t) = inr t_now) as Hupd.
    { intros t_now _ Hj.
      apply (update_dim_restated _ _ _ _ dp Hj (PyInt z)); [done..|simpl; lia]. }
    split.
    + destruct (at_axis_or_failed check_model _ _ _ _ _ _ _ _ _ Ht Harr Hd)
        as [(m_now & t_now & Hat)|(e' & _ & Hkept)].
      * destruct (axis_written check_model h l input_dims output_dims ph i j t
                    arr (PyInt z) dp Ht Harr Hd Hdp dp) as [Hreached _].
        { intros t_now' Hn Hj. rewrite (Hupd _ Hn Hj).
          by rewrite (store_dim_same _ _ _ Hj). }
        by eapply Hreached.
      * by rewrite call_axis_of, Hkept.
    + intros m_now t_now Hat.
      destruct (axis_current h l input_dims output_dims ph i j t (PyInt z) dp
                  Ht Hdp m_now t_now Hat) as (Hn & Hj & _).
      by apply Hupd.
  - intros Hv Hbig.
    destruct (axis_fails check_model h l input_dims output_dims ph i j t arr
                (PyInt z) dp Ht Harr Hd Hdp (ValueError_out_of_range z))
      as (Hfail & Hkeep & Hreached).
    { intros t_now _ Hj.
      apply (update_dim_too_large _ _ _ _ dp Hj (PyInt z)); [done..|simpl; lia]. }
    split; [done|]. split; [done|].
    intros m_now t_now Hat. split; [by eapply Hreached|done].
Qed.

(** Axis 1 of [x] holds the symbolic name ["n"] and gets 7 as target, in a
    call that returns: the axis then holds the fixed value 7. *)
Lemma fixed_value_rule_witness :
  tensors_of Inputs (Ex.only Ex.m 0) !! 0 = Some Ex.x
  ∧ dims_for Inputs {[ "x" := [PyInt 3; PyInt 7] ]}
      {[ "y" := [PyStr "n"; PyInt 5] ]} !! name Ex.x
    = Some [PyInt 3; PyInt 7]
  ∧ [PyInt 3; PyInt 7] !! 1 = Some (PyInt 7)
  ∧ (0 ≤ 7)%Z
  ∧ dim Ex.x !! 1 = Some (Ex.symbolic "n")
  ∧ (update_inputs_outputs_dims Ex.accept 0 {[ "x" := [PyInt 3; PyInt 7] ]}
       {[ "y" := [PyStr "n"; PyInt 5] ]} (Ex.only Ex.m)).2 = inr 0
  ∧ axis_of
      ((update_inputs_outputs_dims Ex.accept 0 {[ "x" := [PyInt 3; PyInt 7] ]}
          {[ "y" := [PyStr "n"; PyInt 5] ]} (Ex.only Ex.m)).1 0) Inputs 0 1
    = Some {| value := dim_value 7; denotation := "" |}.
Proof.
  assert (tensors_of Inputs (Ex.only Ex.m 0) !! 0 = Some Ex.x) as Ht
    by reflexivity.
  assert (dims_for Inputs {[ "x" := [PyInt 3; PyInt 7] ]}
            {[ "y" := [PyStr "n"; PyInt 5] ]} !! name Ex.x
          = Some [PyInt 3; PyInt 7]) as Harr by reflexivity.
  assert ([PyInt 3; PyInt 7] !! 1 = Some (PyInt 7)) as Hd by reflexivity.
  assert (0 ≤ 7)%Z as Hz by lia.
  assert (dim Ex.x !! 1 = Some (Ex.symbolic "n")) as Hdp by reflexivity.
  assert ((update_inputs_outputs_dims Ex.accept 0 {[ "x" := [PyInt 3; PyInt 7] ]}
             {[ "y" := [PyStr "n"; PyInt 5] ]} (Ex.only Ex.m)).2 = inr 0) as Hret
    by (vm_compute; reflexivity).
  repeat (split; [assumption|]).
  destruct (fixed_value_rule Ex.accept (Ex.only Ex.m) 0 _ _ Inputs 0 1 Ex.x _ 7
              (Ex.symbolic "n") Ht Harr Hd Hz Hdp) as (_ & Hset & _).
  destruct Hset as [_ Hreturned]; [by intros v [=]|reflexivity|].
  by apply (Hreturned 0).
Defined.

(** C2. Axis [j] of the input or output tensor [name] has a negative integer
    as target; the candidate is [name ++ "_" ++ str(j)].  If the candidate is
    a symbolic name of an input, an output or a value info of the model the
    call started with, the call fails and the axis keeps what it held; the
    exception is the name-collision [ValueError] of that axis when the call
    gets to it.  Otherwise [update_dim] sets the axis to the candidate, which
    is what the model holds there after every call that gets to the axis,
    and so after every call that returns.  Only the model the call started
    with counts: names assigned earlier in the same call play no part in the
    test. *)
Theorem generated_name_rule (check_model : ModelProto → bool) (h : store) (l : loc)
    (input_dims output_dims : gmap string (list pyval))
    (ph : phase) (i j : nat) (t : ValueInfoProto) (arr : list pyval)
    (z : Z) (dp : Dimension) :
  tensors_of ph (h l) !! i = Some t →
  dims_for ph input_dims output_dims !! name t = Some arr →
  arr !! j = Some (PyInt z) →
  (z < 0)%Z →
  dim t !! j = Some dp →
  let candidate := name t +:+ "_" +:+ pretty j in
  let original :=
    input (graph (h l)) ++ output (graph (h l)) ++ value_info (graph (h l)) in
  (dim_param_in original candidate →
     (∃ e, (update_inputs_outputs_dims check_model l input_dims output_dims h).2
           = inl e)
     ∧ axis_of
         ((update_inputs_outputs_dims check_model l input_dims output_dims h).1 l)
         ph i j = Some dp
     ∧ ∀ m_now t_now,
         at_axis (h l) input_dims output_dims ph i j
           = Some (m_now, t_now, PyInt z) →
         update_inputs_outputs_dims check_model l input_dims output_dims h
         = (write h l m_now, inl (ValueError_not_unique j (name t)))
         ∧ kind_of (ValueError_not_unique j (name t)) = NameCollisionFailure)
  ∧ (¬ dim_param_in original candidate →
     (∀ m_now t_now,
        at_axis (h l) input_dims output_dims ph i j
          = Some (m_now, t_now, PyInt z) →
        update_dim (collect_dim_params (h l)) t_now (PyInt z) j (name t)
          = inr (store_dim t_now j (set_dim_param dp candidate))
        ∧ axis_of
            ((update_inputs_outputs_dims check_model l input_dims output_dims h).1 l)
            ph i j = Some (set_dim_param dp candidate))
     ∧ (∀ l',
          (update_inputs_outputs_dims check_model l input_dims output_dims h).2
            = inr l' →
          axis_of
            ((update_inputs_outputs_dims check_model l input_dims output_dims h).1 l)
            ph i j = Some (set_dim_param dp candidate))).
Proof.
  intros Ht Harr Hd Hz Hdp candidate original. split.
  - intros Hin%elem_of_collect_dim_params.
    destruct (axis_fails check_model h l input_dims output_dims ph i j t arr
                (PyInt z) dp Ht Harr Hd Hdp (ValueError_not_unique j (name t)))
      as (Hfail & Hkeep & Hreached).
    { intros t_now _ Hj. by apply (update_dim_collision _ _ _ _ dp). }
    split; [done|]. split; [done|].
    intros m_now t_now Hat. split; [by eapply Hreached|done].
  - intros Hnot.
    assert (generated_dim_param (name t) j ∉ collect_dim_params (h l)) as Hfresh
      by (by rewrite elem_of_collect_dim_params).
    apply (axis_written check_model h l input_dims output_dims ph i j t arr
             (PyInt z) dp Ht Harr Hd Hdp).
    intros t_now _ Hj. by apply (update_dim_generated _ _ _ _ dp).
Qed.

(** An input and an output that are both called ["x"]: when the call gets to
    the output's axis 0, the candidate ["x_0"] has just been given to the
    input's axis 0, and the output's axis gets it all the same. *)
Lemma generated_name_rule_witness :
  let m := Ex.model [Ex.tensor "x" [Ex.fixed 2]] [Ex.tensor "x" [Ex.fixed 2]] [] in
  let m_now :=
    Ex.model [Ex.tensor "x" [Ex.symbolic "x_0"]] [Ex.tensor "x" [Ex.fixed 2]] [] in
  tensors_of Outputs (Ex.only m 0) !! 0 = Some (Ex.tensor "x" [Ex.fixed 2])
  ∧ dims_for Outputs {[ "x" := [PyInt (-1)] ]} {[ "x" := [PyInt (-1)] ]}
      !! name (Ex.tensor "x" [Ex.fixed 2]) = Some [PyInt (-1)]
  ∧ [PyInt (-1)] !! 0 = Some (PyInt (-1))
  ∧ (-1 < 0)%Z
  ∧ dim (Ex.tensor "x" [Ex.fixed 2]) !! 0 = Some (Ex.fixed 2)
  ∧ at_axis (Ex.only m 0) {[ "x" := [PyInt (-1)] ]} {[ "x" := [PyInt (-1)] ]}
      Outputs 0 0 = Some (m_now, Ex.tensor "x" [Ex.fixed 2], PyInt (-1))
  ∧ "x_0" ∈ collect_dim_params m_now
  ∧ axis_of
      ((update_inputs_outputs_dims Ex.accept 0
          {[ "x" := [PyInt (-1)] ]} {[ "x" := [PyInt (-1)] ]} (Ex.only m)).1 0)
      Outputs 0 0
    = Some (Ex.symbolic "x_0").
Proof.
  intros m m_now.
  assert (tensors_of Outputs (Ex.only m 0) !! 0 = Some (Ex.tensor "x" [Ex.fixed 2]))
    as Ht by reflexivity.
  assert (dims_for Outputs {[ "x" := [PyInt (-1)] ]} {[ "x" := [PyInt (-1)] ]}
            !! name (Ex.tensor "x" [Ex.fixed 2]) = Some [PyInt (-1)])
    as Harr by reflexivity.
  assert ([PyInt (-1)] !! 0 = Some (PyInt (-1))) as Hd by reflexivity.
  assert (-1 < 0)%Z as Hz by lia.
  assert (dim (Ex.tensor "x" [Ex.fixed 2]) !! 0 = Some (Ex.fixed 2)) as Hdp
    by reflexivity.
  assert (at_axis (Ex.only m 0) {[ "x" := [PyInt (-1)] ]} {[ "x" := [PyInt (-1)] ]}
            Outputs 0 0 = Some (m_now, Ex.tensor "x" [Ex.fixed 2], PyInt (-1)))
    as Hat by (vm_compute; reflexivity).
  repeat (split; [assumption|]).
  split; [by apply (bool_decide_unpack _); vm_compute|].
  destruct (generated_name_rule Ex.accept (Ex.only m) 0 _ _ Outputs 0 0 _ _
              (-1) (Ex.fixed 2) Ht Harr Hd Hz Hdp) as [_ Hfresh].
  destruct Hfresh as [Hreached _].
  { intros Hin%elem_of_collect_dim_params. revert Hin.
    apply (bool_decide_unpack (_ ∉ _)). vm_compute. exact I. }
  by eapply (Hreached m_now).
Defined.



(** ** Names without an entry *)

(** A loop over a list that holds a tensor without an entry raises, and
    leaves that tensor as it was. *)
Lemma update_tensors_missing (S0 : gset string) (D : gmap string (list pyval))
    (tensors : list ValueInfoProto) : ∀ (i : nat) (t : ValueInfoProto),
  tensors !! i = Some t → D !! name t = None →
  ∃ l' e, update_tensors S0 D tensors = (l', Some e) ∧ l' !! i = Some t.
Proof.
  induction tensors as [|t0 rest IH]; intros i t Hi Hnone; [done|].
  simpl. destruct i as [|i]; simpl in Hi.
  - simplify_eq. rewrite Hnone. by eexists _, _.
  - destruct (D !! name t0) as [arr|]; [|by eexists _, _].
    destruct (update_dims S0 t0 arr 0 (name t0)) as [t0' [e|]];
      [by eexists _, _|].
    destruct (IH i t Hi Hnone) as (l' & e & -> & Hl'). by eexists _, _.
Qed.

Lemma run_missing check_model m input_dims output_dims ph i t :
  tensors_of ph m !! i = Some t →
  dims_for ph input_dims output_dims !! name t = None →
  ∃ e, (run check_model m input_dims output_dims).2 = Some e
       ∧ tensors_of ph (run check_model m input_dims output_dims).1 !! i = Some t.
Proof.
  intros Hi Hnone.
  destruct (update_tensors_missing (collect_dim_params m)
              (dims_for ph input_dims output_dims) _ _ _ Hi Hnone)
    as (l' & e & Hloop & Hl').
  destruct (loop_start m input_dims ph) as [m1|] eqn:Hstart.
  - destruct (run_phase check_model m input_dims output_dims ph m1 l' (Some e)
                Hstart Hloop) as [Htens Hraise].
    exists e. rewrite (Hraise e eq_refl) in *. by rewrite <-Htens in Hl'.
  - destruct ph; [done|]. simpl in *. unfold run.
    destruct (update_tensors (collect_dim_params m) input_dims (input (graph m)))
      as [inputs' [e'|]]; [|done].
    by exists e'.
Qed.

(** C4. A tensor of the model whose name has no entry in the dictionary of
    its loop is never skipped: the call fails and leaves that tensor exactly
    as it was; and when the call gets to that tensor, it ends there with
    [KeyError], before any axis of the tensor is touched. *)
Theorem missing_entry_fails (check_model : ModelProto → bool) (h : store) (l : loc)
    (input_dims output_dims : gmap string (list pyval))
    (ph : phase) (i : nat) (t : ValueInfoProto) :
  tensors_of ph (h l) !! i = Some t →
  dims_for ph input_dims output_dims !! name t = None →
  (∃ e,
     (update_inputs_outputs_dims check_model l input_dims output_dims h).2 = inl e
     ∧ tensors_of ph
         ((update_inputs_outputs_dims check_model l input_dims output_dims h).1 l)
         !! i = Some t)
  ∧ (∀ m_now t_now,
       at_tensor (h l) input_dims output_dims ph i = Some (m_now, t_now) →
       t_now = t
       ∧ update_inputs_outputs_dims check_model l input_dims output_dims h
         = (write h l m_now, inl (KeyError (name t)))
       ∧ kind_of (KeyError (name t)) = LookupFailure
       ∧ tensors_of ph m_now !! i = Some t).
Proof.
  intros Hi Hnone. split.
  - destruct (run_missing check_model (h l) input_dims output_dims ph i t Hi Hnone)
      as (e & He & Ht).
    exists e. rewrite call_unfold. simpl. rewrite He, write_same. done.
  - intros m_now t_now Hat.
    destruct (at_tensor_Some _ _ _ _ _ _ _ Hat) as [Hi' Hnow].
    assert (t_now = t) as -> by congruence.
    split; [done|]. split; [|done].
    by eapply call_raise, at_tensor_missing.
Qed.

Lemma missing_entry_fails_witness :
  tensors_of Outputs (Ex.only Ex.m 0) !! 0 = Some Ex.y
  ∧ dims_for Outputs {[ "x" := [PyInt 3; PyInt (-1)] ]} ∅ !! name Ex.y = None
  ∧ ∃ e,
      (update_inputs_outputs_dims Ex.accept 0 {[ "x" := [PyInt 3; PyInt (-1)] ]} ∅
         (Ex.only Ex.m)).2 = inl e
      ∧ tensors_of Outputs
          ((update_inputs_outputs_dims Ex.accept 0
              {[ "x" := [PyInt 3; PyInt (-1)] ]} ∅ (Ex.only Ex.m)).1 0)
          !! 0 = Some Ex.y.
Proof.
  assert (tensors_of Outputs (Ex.only Ex.m 0) !! 0 = Some Ex.y) as Hi
    by reflexivity.
  assert (dims_for Outputs {[ "x" := [PyInt 3; PyInt (-1)] ]} ∅ !! name Ex.y = None)
    as Hnone by reflexivity.
  repeat (split; [assumption|]).
  apply (missing_entry_fails Ex.accept (Ex.only Ex.m) 0 _ _ Outputs 0 Ex.y Hi Hnone).
Defined.

(** ** The validator *)

Lemma update_dim_not_validation S0 t d j n e :
  update_dim S0 t d j n = inl e → e ≠ ValidationError.
Proof.
  unfold update_dim, assign_dim_value. intros H.
  repeat case_match; by simplify_eq.
Qed.

Lemma update_dims_not_validation S0 arr : ∀ t j n t' e,
  update_dims S0 t arr j n = (t', Some e) → e ≠ ValidationError.
Proof.
  induction arr as [|d arr IH]; intros t j n t' e H; simpl in H; [done|].
  destruct (update_dim S0 t d j n) as [e0|t1] eqn:Hd.
  - simplify_eq. by eapply update_dim_not_validation.
  - by eapply IH.
Qed.

Lemma update_tensors_not_validation S0 D l : ∀ l' e,
  update_tensors S0 D l = (l', Some e) → e ≠ ValidationError.
Proof.
  induction l as [|t l IH]; intros l' e H; simpl in H; [done|].
  destruct (D !! name t) as [arr|]; [|by simplify_eq].
  destruct (update_dims S0 t arr 0 (name t)) as [t' [e0|]] eqn:Hd.
  - simplify_eq. by eapply update_dims_not_validation.
  - destruct (update_tensors S0 D l) as [l0 r]. simplify_eq. by eapply IH.
Qed.

(** The validator decides how the call ends, not what it did to the model. *)
Lemma run_model_any_validator check1 check2 m input_dims output_dims :
  (run check1 m input_dims output_dims).1 = (run check2 m input_dims output_dims).1.
Proof.
  unfold run.
  destruct (update_tensors _ input_dims _) as [i' [e|]]; [done|].
  destruct (update_tensors _ output_dims _) as [o' [e|]]; [done|].
  by destruct (check1 _), (check2 _).
Qed.

Lemma run_refused check_model m input_dims output_dims :
  (run check_model m input_dims output_dims).2 = Some ValidationError →
  run (fun _ => true) m input_dims output_dims
  = ((run check_model m input_dims output_dims).1, None).
Proof.
  unfold run.
  destruct (update_tensors _ input_dims _) as [i' [e|]] eqn:Hin.
  { simpl. intros [= ->]. by apply update_tensors_not_validation in Hin. }
  destruct (update_tensors _ output_dims _) as [o' [e|]] eqn:Hout.
  { simpl. intros [= ->]. by apply update_tensors_not_validation in Hout. }
  by destruct (check_model _).
Qed.

(** ** Mutation in place *)

(** C5. The call works on the object behind the reference it is given: the
    reference it returns is that reference, and no other object of the store
    is created or changed.  Nothing is rolled back: an exception of
    [update_dim] ends the call with the model as it was at that point, what a
    successful [update_dim] wrote to an axis is still there when the call is
    over, however it ends, and a call that the validator refuses leaves the
    store exactly as an accepted call would have left it. *)
Theorem mutation_in_place (check_model : ModelProto → bool) (h : store) (l : loc)
    (input_dims output_dims : gmap string (list pyval)) :
  (∀ l',
     (update_inputs_outputs_dims check_model l input_dims output_dims h).2 = inr l' →
     l' = l)
  ∧ (∀ l', l' ≠ l →
       (update_inputs_outputs_dims check_model l input_dims output_dims h).1 l'
       = h l')
  ∧ (∀ ph i j m_now t d,
       at_axis (h l) input_dims output_dims ph i j = Some (m_now, t, d) →
       (∀ e, update_dim (collect_dim_params (h l)) t d j (name t) = inl e →
          update_inputs_outputs_dims check_model l input_dims output_dims h
          = (write h l m_now, inl e))
       ∧ (∀ t2, update_dim (collect_dim_params (h l)) t d j (name t) = inr t2 →
          ∃ t',
            tensors_of ph
              ((update_inputs_outputs_dims check_model l input_dims output_dims h).1 l)
              !! i = Some t'
            ∧ dim t' !! j = dim t2 !! j))
  ∧ (∀ check',
       (update_inputs_outputs_dims check' l input_dims output_dims h).1
       = (update_inputs_outputs_dims check_model l input_dims output_dims h).1)
  ∧ ((update_inputs_outputs_dims check_model l input_dims output_dims h).2
       = inl ValidationError →
     update_inputs_outputs_dims (fun _ => true) l input_dims output_dims h
     = ((update_inputs_outputs_dims check_model l input_dims output_dims h).1,
        inr l)).
Proof.
  repeat split.
  - intros l'. rewrite call_unfold. simpl.
    destruct (run check_model (h l) input_dims output_dims).2; by intros [= <-].
  - intros l' Hne. rewrite call_unfold. simpl. by apply write_other.
  - intros e He. by eapply call_raise, at_axis_raise.
  - intros t2 Hok. rewrite call_model. by eapply at_axis_stays.
  - intros check'. rewrite !call_unfold. simpl.
    by rewrite (run_model_any_validator check' check_model).
  - rewrite !call_unfold. simpl.
    destruct (run check_model (h l) input_dims output_dims).2 as [e|] eqn:He;
      [|done].
    intros [= ->]. by rewrite (run_refused _ _ _ _ He).
Qed.

(** A call that fails at axis 1 of its only input ("x_1" is taken) after it
    has renamed axis 0: the model is left with axis 0 renamed. *)
Example partial_mutation_is_kept :
  update_inputs_outputs_dims Ex.accept 0
    {[ "x" := [PyStr "batch"; PyInt (-1)] ]} ∅
    (Ex.only (Ex.model [Ex.x] [] [Ex.tensor "hidden" [Ex.symbolic "x_1"]]))
  = (write (Ex.only (Ex.model [Ex.x] [] [Ex.tensor "hidden" [Ex.symbolic "x_1"]])) 0
       (Ex.model [Ex.tensor "x" [Ex.symbolic "batch"; Ex.symbolic "n"]] []
                 [Ex.tensor "hidden" [Ex.symbolic "x_1"]]),
     inl (ValueError_not_unique 1 "x")).
Proof. vm_compute. reflexivity. Qed.

(** A call that the validator refuses: the exception is [ValidationError]
    and the model holds every update. *)
Example refused_call_is_mutated :
  update_inputs_outputs_dims Ex.refuse 0
    {[ "x" := [PyInt 3; PyInt (-1)] ]} {[ "y" := [PyStr "batch"; PyInt 5] ]}
    (Ex.only Ex.m)
  = (write (Ex.only Ex.m) 0
       (Ex.model [Ex.tensor "x" [Ex.fixed 3; Ex.symbolic "x_1"]]
                 [Ex.tensor "y" [Ex.symbolic "batch"; Ex.fixed 5]]
                 [Ex.hidden]),
     inl ValidationError).
Proof. vm_compute. reflexivity. Qed.

(** ** Entries and axes *)

(** Each tensor of a list leaves its loop as it was, or as the loop over its
    own entries left it. *)
Lemma update_tensors_lookup (S0 : gset string) (D : gmap string (list pyval))
    (tensors : list ValueInfoProto) : ∀ (i : nat) (t : ValueInfoProto),
  tensors !! i = Some t →
  (update_tensors S0 D tensors).1 !! i = Some t
  ∨ ∃ arr, D !! name t = Some arr
           ∧ (update_tensors S0 D tensors).1 !! i
             = Some (update_dims S0 t arr 0 (name t)).1.
Proof.
  induction tensors as [|t0 rest IH]; intros i t Hi; [done|].
  simpl. destruct (D !! name t0) as [arr|] eqn:Harr; [|by left].
  destruct i as [|i]; simpl in Hi.
  - simplify_eq. right. exists arr. split; [done|].
    destruct (update_dims S0 t arr 0 (name t)) as [t' [e|]]; [done|].
    by destruct (update_tensors S0 D rest).
  - destruct (update_dims S0 t0 arr 0 (name t0)) as [t0' [e|]]; [by left|].
    specialize (IH i t Hi).
    by destruct (update_tensors S0 D rest).
Qed.

Lemma run_tensors check_model m input_dims output_dims ph :
  tensors_of ph (run check_model m input_dims output_dims).1 = tensors_of ph m
  ∨ tensors_of ph (run check_model m input_dims output_dims).1
    = (update_tensors (collect_dim_params m)
         (dims_for ph input_dims output_dims) (tensors_of ph m)).1.
Proof.
  destruct (loop_start m input_dims ph) as [m1|] eqn:Hstart.
  - right.
    destruct (update_tensors (collect_dim_params m)
                (dims_for ph input_dims output_dims) (tensors_of ph m))
      as [l' r] eqn:Hloop.
    by destruct (run_phase check_model m input_dims output_dims ph m1 l' r
                   Hstart Hloop) as [-> _].
  - left. destruct ph; [done|]. simpl in *. unfold run.
    by destruct (update_tensors (collect_dim_params m) input_dims (input (graph m)))
      as [inputs' [e'|]].
Qed.

Lemma update_dim_in_range S0 t d j n dp :
  dim t !! j = Some dp → update_dim S0 t d j n ≠ inl IndexError.
Proof.
  unfold update_dim, assign_dim_value. intros -> H.
  repeat case_match; by simplify_eq.
Qed.

(** C6 as the design document has it, every mismatch between the number of
    entries and the number of axes surfacing as an out-of-range access, does
    not hold for a list that is too short: [x] has two axes and is given one
    entry, and the call returns. *)
Lemma fewer_entries_counterexample :
  tensors_of Inputs Ex.m !! 0 = Some Ex.x
  ∧ dims_for Inputs {[ "x" := [PyInt 3] ]} {[ "y" := [PyStr "n"; PyInt 5] ]}
      !! name Ex.x = Some [PyInt 3]
  ∧ length [PyInt 3] ≠ length (dim Ex.x)
  ∧ update_inputs_outputs_dims Ex.accept 0
      {[ "x" := [PyInt 3] ]} {[ "y" := [PyStr "n"; PyInt 5] ]} (Ex.only Ex.m)
    = (write (Ex.only Ex.m) 0 Ex.m, inr 0).
Proof.
  split; [reflexivity|]. split; [reflexivity|]. split; [by vm_compute|].
  vm_compute. reflexivity.
Qed.

(** C6, as the code has it.  No count is checked.  With more entries than
    axes the call fails, and with [IndexError] when it gets to the first
    entry that has no axis; an entry that has an axis never raises
    [IndexError]; and the axes that have no entry hold after the call what
    they held before, so a list that is too short is accepted in silence. *)
Theorem axis_count_mismatch (check_model : ModelProto → bool) (h : store) (l : loc)
    (input_dims output_dims : gmap string (list pyval))
    (ph : phase) (i : nat) (t : ValueInfoProto) (arr : list pyval) :
  tensors_of ph (h l) !! i = Some t →
  dims_for ph input_dims output_dims !! name t = Some arr →
  (length (dim t) < length arr →
     (∃ e, (update_inputs_outputs_dims check_model l input_dims output_dims h).2
           = inl e)
     ∧ ∀ m_now t_now d,
         at_axis (h l) input_dims output_dims ph i (length (dim t))
           = Some (m_now, t_now, d) →
         update_inputs_outputs_dims check_model l input_dims output_dims h
           = (write h l m_now, inl IndexError)
         ∧ kind_of IndexError = OutOfRangeAccess)
  ∧ (∀ j m_now t_now d,
       at_axis (h l) input_dims output_dims ph i j = Some (m_now, t_now, d) →
       j ≤ length (dim t)
       ∧ (j < length (dim t) →
          update_dim (collect_dim_params (h l)) t_now d j (name t)
            ≠ inl IndexError))
  ∧ (∀ k, length arr ≤ k →
       axis_of
         ((update_inputs_outputs_dims check_model l input_dims output_dims h).1 l)
         ph i k = dim t !! k).
Proof.
  intros Hi Harr.
  assert (∀ j m_now t_now d,
            at_axis (h l) input_dims output_dims ph i j = Some (m_now, t_now, d) →
            j < length arr ∧ j ≤ length (dim t)
            ∧ length (dim t_now) = length (dim t)) as Hbounds.
  { intros j m_now t_now d
      (m1 & t0 & arr0 & pre' & Hm1 & Ht0 & Hpre & Harr0 & Hd & Hdims & ->)
      %at_axis_inv.
    assert (t0 = t) as -> by congruence.
    assert (arr0 = arr) as -> by congruence.
    apply lookup_lt_Some in Hd as Hj.
    pose proof (update_dims_length (collect_dim_params (h l)) (take j arr) t 0
                  (name t)) as Hlen.
    rewrite Hdims in Hlen. simpl in Hlen.
    split; [done|]. split; [|done].
    apply update_dims_None_length in Hdims as [H| H].
    - rewrite length_take_le in H by lia. lia.
    - apply (f_equal length) in H. rewrite length_take_le in H by lia.
      simpl in H. lia. }
  assert (∀ m_now t_now d,
            at_axis (h l) input_dims output_dims ph i (length (dim t))
              = Some (m_now, t_now, d) →
            update_inputs_outputs_dims check_model l input_dims output_dims h
              = (write h l m_now, inl IndexError)) as Hreached.
  { intros m_now t_now d Hat.
    destruct (Hbounds _ _ _ _ Hat) as (_ & _ & Hlen).
    eapply call_raise, at_axis_raise; [done|].
    apply update_dim_out_of_range, lookup_ge_None. lia. }
  split; [|split].
  - intros Hlong. split.
    + destruct (lookup_lt_is_Some_2 arr (length (dim t)) Hlong) as [d Hd].
      destruct (at_axis_or_failed check_model _ _ _ _ _ _ _ _ _ Hi Harr Hd)
        as [(m_now & t_now & Hat)|(e' & He' & _)].
      * exists IndexError. by rewrite (Hreached _ _ _ Hat).
      * exists e'. rewrite call_unfold. simpl. by rewrite He'.
    + intros m_now t_now d Hat. split; [by eapply Hreached|done].
  - intros j m_now t_now d Hat.
    destruct (Hbounds _ _ _ _ Hat) as (_ & Hle & Hlen).
    split; [done|]. intros Hlt.
    destruct (lookup_lt_is_Some_2 (dim t_now) j) as [dp Hdp]; [lia|].
    by eapply update_dim_in_range.
  - intros k Hk. rewrite call_axis_of. unfold axis_of.
    destruct (run_tensors check_model (h l) input_dims output_dims ph) as [->| ->].
    { by rewrite Hi. }
    destruct (update_tensors_lookup (collect_dim_params (h l))
                (dims_for ph input_dims output_dims) _ _ _ Hi)
      as [->|(arr0 & Harr0 & ->)]; [done|].
    assert (arr0 = arr) as -> by congruence.
    simpl. apply update_dims_lookup_outside. right. simpl. lia.
Qed.

Lemma axis_count_mismatch_witness :
  tensors_of Inputs (Ex.only Ex.m 0) !! 0 = Some Ex.x
  ∧ dims_for Inputs {[ "x" := [PyInt 3; PyStr "k"; PyInt 7] ]} ∅ !! name Ex.x
    = Some [PyInt 3; PyStr "k"; PyInt 7]
  ∧ length (dim Ex.x) < length [PyInt 3; PyStr "k"; PyInt 7]
  ∧ update_inputs_outputs_dims Ex.accept 0
      {[ "x" := [PyInt 3; PyStr "k"; PyInt 7] ]} ∅ (Ex.only Ex.m)
    = (write (Ex.only Ex.m) 0
         (Ex.model [Ex.tensor "x" [Ex.fixed 3; Ex.symbolic "k"]] [Ex.y] [Ex.hidden]),
       inl IndexError).
Proof.
  assert (tensors_of Inputs (Ex.only Ex.m 0) !! 0 = Some Ex.x) as Hi
    by reflexivity.
  assert (dims_for Inputs {[ "x" := [PyInt 3; PyStr "k"; PyInt 7] ]} ∅ !! name Ex.x
          = Some [PyInt 3; PyStr "k"; PyInt 7]) as Harr by reflexivity.
  assert (length (dim Ex.x) < length [PyInt 3; PyStr "k"; PyInt 7]) as Hlong
    by (simpl; lia).
  repeat (split; [assumption|]).
  destruct (axis_count_mismatch Ex.accept (Ex.only Ex.m) 0 _ _ Inputs 0 Ex.x _
              Hi Harr) as [Hmore _].
  destruct (Hmore Hlong) as [_ Hreached].
  eapply Hreached. vm_compute. reflexivity.
Defined.

(** ** Generated names *)

Lemma append_cons a s s' : String a s +:+ s' = String a (s +:+ s').
Proof. reflexivity. Qed.

Lemma append_nil s : "" +:+ s = s.
Proof. reflexivity. Qed.

Lemma occurs_append_cons c s r : occurs c (s +:+ String c r) = true.
Proof.
  induction s as [|a s IH].
  - rewrite append_nil. simpl. by rewrite decide_True.
  - rewrite append_cons. simpl. by destruct (decide (a = c)).
Qed.

(** A string splits in one way only around the last occurrence of [c]. *)
Lemma split_at_last c s1 : ∀ s2 r1 r2,
  s1 +:+ String c r1 = s2 +:+ String c r2 →
  occurs c r1 = false → occurs c r2 = false →
  s1 = s2 ∧ r1 = r2.
Proof.
  induction s1 as [|a s1 IH]; intros [|b s2] r1 r2 Heq H1 H2;
    rewrite ?append_nil, ?append_cons in Heq.
  - by simplify_eq.
  - simplify_eq. by rewrite occurs_append_cons in H1.
  - simplify_eq. by rewrite occurs_append_cons in H2.
  - injection Heq as -> Heq. by destruct (IH _ _ _ Heq H1 H2) as [-> ->].
Qed.

Lemma pretty_N_char_not_underscore x : pretty_N_char x ≠ "_"%char.
Proof. unfold pretty_N_char. by repeat case_match. Qed.

Lemma pretty_N_go_no_underscore x : ∀ s,
  occurs "_" s = false → occurs "_" (pretty_N_go x s) = false.
Proof.
  induction (N.lt_wf_0 x) as [x _ IH]; intros s Hs.
  assert (x = 0 ∨ 0 < x)%N as [->|Hx] by lia.
  - by rewrite pretty_N_go_0.
  - rewrite pretty_N_go_step by done. apply IH.
    + by apply N.div_lt.
    + simpl. rewrite decide_False; [done|]. apply pretty_N_char_not_underscore.
Qed.

(** [str(j)] has no underscore. *)
Lemma pretty_nat_no_underscore (j : nat) : occurs "_" (pretty j) = false.
Proof.
  unfold pretty, pretty_nat, pretty, pretty_N.
  case_decide; [done|]. by apply pretty_N_go_no_underscore.
Qed.

(** The tensor name and the axis can be read back from a generated name. *)
Lemma generated_dim_param_inj n1 j1 n2 j2 :
  generated_dim_param n1 j1 = generated_dim_param n2 j2 → n1 = n2 ∧ j1 = j2.
Proof.
  unfold generated_dim_param. intros H.
  change ("_" +:+ pretty j1) with (String "_" (pretty j1)) in H.
  change ("_" +:+ pretty j2) with (String "_" (pretty j2)) in H.
  apply split_at_last in H as [-> Hj]; try apply pretty_nat_no_underscore.
  split; [done|]. by apply (inj pretty).
Qed.

Lemma position_lookup m ph i t :
  tensors_of ph m !! i = Some t →
  (input (graph m) ++ output (graph m)) !! position m ph i = Some t.
Proof.
  destruct ph; simpl; intros H.
  - by apply lookup_app_l_Some.
  - rewrite lookup_app_r by lia. by rewrite Nat.add_comm, Nat.add_sub.
Qed.

Lemma position_inj m ph1 i1 t1 ph2 i2 t2 :
  tensors_of ph1 m !! i1 = Some t1 →
  tensors_of ph2 m !! i2 = Some t2 →
  position m ph1 i1 = position m ph2 i2 →
  ph1 = ph2 ∧ i1 = i2.
Proof.
  destruct ph1, ph2; simpl; intros H1%lookup_lt_Some H2%lookup_lt_Some Hp;
    (split; [done || lia | lia]).
Qed.

(** C7. In a model whose input and output tensor names are pairwise
    distinct, the names [name ++ "_" ++ str(j)] generated for two different
    axes with negative targets are different names, since the tensor name and
    the axis can be read back from a generated name; and after a call that
    returns, the two axes hold these two different names.  No refresh of the
    set of names is involved. *)
Theorem generated_names_distinct (check_model : ModelProto → bool) (h : store)
    (l : loc) (input_dims output_dims : gmap string (list pyval))
    (ph1 : phase) (i1 j1 : nat) (t1 : ValueInfoProto) (arr1 : list pyval) (z1 : Z)
    (ph2 : phase) (i2 j2 : nat) (t2 : ValueInfoProto) (arr2 : list pyval) (z2 : Z) :
  NoDup (name <$> (input (graph (h l)) ++ output (graph (h l)))) →
  tensors_of ph1 (h l) !! i1 = Some t1 →
  dims_for ph1 input_dims output_dims !! name t1 = Some arr1 →
  arr1 !! j1 = Some (PyInt z1) →
  (z1 < 0)%Z →
  tensors_of ph2 (h l) !! i2 = Some t2 →
  dims_for ph2 input_dims output_dims !! name t2 = Some arr2 →
  arr2 !! j2 = Some (PyInt z2) →
  (z2 < 0)%Z →
  (ph1, i1, j1) ≠ (ph2, i2, j2) →
  name t1 +:+ "_" +:+ pretty j1 ≠ name t2 +:+ "_" +:+ pretty j2
  ∧ (∀ l',
       (update_inputs_outputs_dims check_model l input_dims output_dims h).2
         = inr l' →
       ∃ d1 d2,
         axis_of
           ((update_inputs_outputs_dims check_model l input_dims output_dims h).1 l)
           ph1 i1 j1 = Some d1
         ∧ value d1 = dim_param (name t1 +:+ "_" +:+ pretty j1)
         ∧ axis_of
             ((update_inputs_outputs_dims check_model l input_dims output_dims h).1 l)
             ph2 i2 j2 = Some d2
         ∧ value d2 = dim_param (name t2 +:+ "_" +:+ pretty j2)
         ∧ value d1 ≠ value d2).
Proof.
  intros Hnodup Ht1 Harr1 Hd1 Hz1 Ht2 Harr2 Hd2 Hz2 Hne.
  assert (generated_dim_param (name t1) j1 ≠ generated_dim_param (name t2) j2)
    as Hdiff.
  { intros [Hn Hj]%generated_dim_param_inj.
    pose proof (position_lookup _ _ _ _ Ht1) as Hp1.
    pose proof (position_lookup _ _ _ _ Ht2) as Hp2.
    apply (f_equal (fmap name)) in Hp1, Hp2.
    rewrite <-list_lookup_fmap in Hp1, Hp2. simpl in Hp1, Hp2.
    assert (position (h l) ph1 i1 = position (h l) ph2 i2) as Hpos.
    { eapply NoDup_lookup; [done..|]. rewrite Hp2. f_equal. congruence. }
    destruct (position_inj _ _ _ _ _ _ _ Ht1 Ht2 Hpos) as [-> ->].
    by subst. }
  split; [done|].
  intros l' Hret.
  destruct (returned_axis_generated _ _ _ _ _ _ _ _ _ _ _ _ Hret Ht1 Harr1 Hd1 Hz1)
    as (dp1 & _ & Ha1).
  destruct (returned_axis_generated _ _ _ _ _ _ _ _ _ _ _ _ Hret Ht2 Harr2 Hd2 Hz2)
    as (dp2 & _ & Ha2).
  eexists _, _. split; [done|]. split; [done|]. split; [done|]. split; [done|].
  simpl. intros [= Heq]. by apply Hdiff.
Qed.

Lemma generated_names_distinct_witness :
  NoDup (name <$> (input (graph (Ex.only Ex.m 0)) ++ output (graph (Ex.only Ex.m 0))))
  ∧ tensors_of Inputs (Ex.only Ex.m 0) !! 0 = Some Ex.x
  ∧ dims_for Inputs {[ "x" := [PyInt (-1); PyInt (-1)] ]}
      {[ "y" := [PyStr "n"; PyInt (-4)] ]} !! name Ex.x
    = Some [PyInt (-1); PyInt (-1)]
  ∧ [PyInt (-1); PyInt (-1)] !! 0 = Some (PyInt (-1))
  ∧ (-1 < 0)%Z
  ∧ tensors_of Outputs (Ex.only Ex.m 0) !! 0 = Some Ex.y
  ∧ dims_for Outputs {[ "x" := [PyInt (-1); PyInt (-1)] ]}
      {[ "y" := [PyStr "n"; PyInt (-4)] ]} !! name Ex.y
    = Some [PyStr "n"; PyInt (-4)]
  ∧ [PyStr "n"; PyInt (-4)] !! 1 = Some (PyInt (-4))
  ∧ (-4 < 0)%Z
  ∧ (Inputs, 0, 0) ≠ (Outputs, 0, 1)
  ∧ "x_0" ≠ "y_1".
Proof.
  assert (NoDup (name <$> (input (graph (Ex.only Ex.m 0))
                           ++ output (graph (Ex.only Ex.m 0))))) as Hnodup
    by (by apply (bool_decide_unpack _); vm_compute).
  assert (tensors_of Inputs (Ex.only Ex.m 0) !! 0 = Some Ex.x) as Ht1
    by reflexivity.
  assert (dims_for Inputs {[ "x" := [PyInt (-1); PyInt (-1)] ]}
            {[ "y" := [PyStr "n"; PyInt (-4)] ]} !! name Ex.x
          = Some [PyInt (-1); PyInt (-1)]) as Harr1 by reflexivity.
  assert ([PyInt (-1); PyInt (-1)] !! 0 = Some (PyInt (-1))) as Hd1
    by reflexivity.
  assert (-1 < 0)%Z as Hz1 by lia.
  assert (tensors_of Outputs (Ex.only Ex.m 0) !! 0 = Some Ex.y) as Ht2
    by reflexivity.
  assert (dims_for Outputs {[ "x" := [PyInt (-1); PyInt (-1)] ]}
            {[ "y" := [PyStr "n"; PyInt (-4)] ]} !! name Ex.y
          = Some [PyStr "n"; PyInt (-4)]) as Harr2 by reflexivity.
  assert ([PyStr "n"; PyInt (-4)] !! 1 = Some (PyInt (-4))) as Hd2
    by reflexivity.
  assert (-4 < 0)%Z as Hz2 by lia.
  assert ((Inputs, 0, 0) ≠ (Outputs, 0, 1)) as Hne by discriminate.
  repeat (split; [assumption|]).
  apply (generated_names_distinct Ex.accept (Ex.only Ex.m) 0 _ _
           Inputs 0 0 Ex.x _ (-1) Outputs 0 1 Ex.y _ (-4)
           Hnodup Ht1 Harr1 Hd1 Hz1 Ht2 Harr2 Hd2 Hz2 Hne).
Defined.

(** ** The end-to-end scenario *)







(** ** The frame *)

Lemma run_skeleton check_model m input_dims output_dims :
  model_skeleton (run check_model m input_dims output_dims).1 = model_skeleton m.
Proof.
  unfold run.
  pose proof (update_tensors_skeleton (collect_dim_params m) input_dims
                (input (graph m))) as Hi.
  pose proof (update_tensors_skeleton (collect_dim_params m) output_dims
                (output (graph m))) as Ho.
  destruct (update_tensors _ input_dims _) as [i' [e|]]; simpl in *.
  { unfold model_skeleton; simpl. by rewrite Hi. }
  destruct (update_tensors _ output_dims _) as [o' [e|]]; simpl in *;
    [|destruct (check_model _)];
    unfold model_skeleton; simpl; by rewrite Hi, Ho.
Qed.

(** C9. Whether the call returns or raises, the model differs from the one
    it started with at most in the [oneof] of the axes of its inputs and
    outputs: the value infos, the nodes, the initializers, the fields of the
    model, the names, element types and doc strings of the inputs and
    outputs, the number of their axes and the denotation of each axis are
    the same; and no other object of the store has changed. *)
Theorem frame (check_model : ModelProto → bool) (h : store) (l : loc)
    (input_dims output_dims : gmap string (list pyval)) :
  let m := h l in
  let m' :=
    (update_inputs_outputs_dims check_model l input_dims output_dims h).1 l in
  model_skeleton m' = model_skeleton m
  ∧ value_info (graph m') = value_info (graph m)
  ∧ node (graph m') = node (graph m)
  ∧ initializer (graph m') = initializer (graph m)
  ∧ ir_version m' = ir_version m
  ∧ producer_name m' = producer_name m
  ∧ skeleton <$> input (graph m') = skeleton <$> input (graph m)
  ∧ skeleton <$> output (graph m') = skeleton <$> output (graph m)
  ∧ name <$> input (graph m') = name <$> input (graph m)
  ∧ name <$> output (graph m') = name <$> output (graph m)
  ∧ (∀ l', l' ≠ l →
       (update_inputs_outputs_dims check_model l input_dims output_dims h).1 l'
       = h l').
Proof.
  intros m m'.
  assert (model_skeleton m' = model_skeleton m) as Hsk.
  { unfold m', m. rewrite call_model. apply run_skeleton. }
  assert (skeleton <$> input (graph m') = skeleton <$> input (graph m)) as Hi
    by apply (f_equal (λ x, input (graph x)) Hsk).
  assert (skeleton <$> output (graph m') = skeleton <$> output (graph m)) as Ho
    by apply (f_equal (λ x, output (graph x)) Hsk).
  split; [done|].
  split; [apply (f_equal (λ x, value_info (graph x)) Hsk)|].
  split; [apply (f_equal (λ x, node (graph x)) Hsk)|].
  split; [apply (f_equal (λ x, initializer (graph x)) Hsk)|].
  split; [apply (f_equal ir_version Hsk)|].
  split; [apply (f_equal producer_name Hsk)|].
  split; [done|]. split; [done|].
  split; [|split].
  - apply (f_equal (fmap name)) in Hi. by rewrite <-!list_fmap_compose in Hi.
  - apply (f_equal (fmap name)) in Ho. by rewrite <-!list_fmap_compose in Ho.
  - intros l' Hne. rewrite call_unfold. simpl. by apply write_other.
Qed.

(** ** Booleans *)

Lemma kind_of_int_in_message e : kind_of (int_in_message e) = kind_of e.
Proof. by destruct e. Qed.

Lemma update_dim_as_int S0 t d j n :
  update_dim S0 t (as_int d) j n
  = sum_map int_in_message id (update_dim S0 t d j n).
Proof.
  unfold update_dim, assign_dim_value. destruct (dim t !! j) as [dp|]; [|done].
  destruct d as [z|b|s|ty]; simpl; repeat case_match; by simplify_eq.
Qed.

Lemma update_dims_as_int S0 arr : ∀ t j n,
  update_dims S0 t (as_int <$> arr) j n
  = ((update_dims S0 t arr j n).1, int_in_message <$> (update_dims S0 t arr j n).2).
Proof.
  induction arr as [|d arr IH]; intros t j n; [done|].
  rewrite fmap_cons. simpl. rewrite update_dim_as_int.
  destruct (update_dim S0 t d j n) as [e|t1]; simpl; [done|]. apply IH.
Qed.

Lemma update_tensors_as_int S0 (D : gmap string (list pyval)) l :
  update_tensors S0 (as_ints D) l
  = ((update_tensors S0 D l).1, int_in_message <$> (update_tensors S0 D l).2).
Proof.
  induction l as [|t l IH]; simpl; [done|].
  unfold as_ints at 1. rewrite lookup_fmap.
  destruct (D !! name t) as [arr|]; simpl; [|done].
  rewrite update_dims_as_int.
  destruct (update_dims S0 t arr 0 (name t)) as [t' [e|]]; simpl; [done|].
  rewrite IH. by destruct (update_tensors S0 D l).
Qed.

Lemma run_as_int check_model m input_dims output_dims :
  run check_model m (as_ints input_dims) (as_ints output_dims)
  = ((run check_model m input_dims output_dims).1,
     int_in_message <$> (run check_model m input_dims output_dims).2).
Proof.
  unfold run. rewrite !update_tensors_as_int.
  destruct (update_tensors _ input_dims _) as [i' [e|]]; simpl; [done|].
  rewrite ?update_tensors_as_int.
  destruct (update_tensors _ output_dims _) as [o' [e|]]; simpl; [done|].
  by destruct (check_model _).
Qed.

(** C10. A [bool] as target takes the branch of the integers: [update_dim]
    does with [True] what it does with [1] and with [False] what it does with
    [0], the contradiction check included (the same tensor on success, the
    same exception on failure, but for the requested value in its message),
    and never raises the invalid-type [ValueError] for it; a whole call with
    [bool]s in its dimension lists leaves the store, and ends, as the call
    with the integers in their place. *)
Theorem bool_is_int (check_model : ModelProto → bool) (h : store) (l : loc)
    (input_dims output_dims : gmap string (list pyval)) :
  (∀ names t b j n,
     update_dim names t (PyInt (Z.b2z b)) j n
     = sum_map int_in_message id (update_dim names t (PyBool b) j n))
  ∧ (∀ names t b j n e,
       update_dim names t (PyBool b) j n = inl e →
       kind_of e = OutOfRangeAccess
       ∨ (kind_of e = ContradictionFailure ∧ ∃ dp v,
            dim t !! j = Some dp ∧ value dp = dim_value v ∧ v ≠ Z.b2z b))
  ∧ (∀ names t b j n dp,
       dim t !! j = Some dp →
       (∀ v, value dp = dim_value v → v = Z.b2z b) →
       update_dim names t (PyBool b) j n
       = inr (store_dim t j (set_dim_value dp (Z.b2z b))))
  ∧ (update_inputs_outputs_dims check_model l
       (as_ints input_dims) (as_ints output_dims) h).1
    = (update_inputs_outputs_dims check_model l input_dims output_dims h).1
  ∧ outcome_kind
      (update_inputs_outputs_dims check_model l
         (as_ints input_dims) (as_ints output_dims) h).2
    = outcome_kind
        (update_inputs_outputs_dims check_model l input_dims output_dims h).2.
Proof.
  split; [|split; [|split; [|split]]].
  - intros names t b j n. apply (update_dim_as_int names t (PyBool b)).
  - intros names t b j n e. unfold update_dim.
    destruct (dim t !! j) as [dp|] eqn:Hdp; [|intros [= <-]; by left].
    simpl. rewrite bool_decide_true by (by destruct b).
    assert (assign_dim_value dp (Z.b2z b) = inr (set_dim_value dp (Z.b2z b)))
      as -> by (by destruct b).
    unfold HasField_dim_value, get_dim_value.
    destruct (value dp) as [|v|s] eqn:Hv; simpl; [done| |done].
    case_bool_decide; [|done]. intros [= <-]. right. split; [done|].
    by exists dp, v.
  - intros names t b j n dp Hdp Hv.
    apply (update_dim_fixed names t j n dp Hdp (PyBool b));
      [done| |done|]; by destruct b.
  - rewrite !call_unfold. simpl. by rewrite run_as_int.
  - rewrite !call_unfold. simpl. rewrite run_as_int. simpl.
    destruct (run check_model (h l) input_dims output_dims).2 as [e|]; simpl;
      [|done].
    by rewrite kind_of_int_in_message.
Qed.

(** [True] for an axis that holds 1 is accepted and changes nothing; [True]
    for an axis that holds 3 is a contradiction. *)
Example bool_restates_one :
  update_dim ∅ (Ex.tensor "x" [Ex.fixed 1]) (PyBool true) 0 "x"
  = inr (Ex.tensor "x" [Ex.fixed 1]).
Proof. reflexivity. Qed.

Example bool_contradicts_three :
  update_dim ∅ Ex.x (PyBool true) 0 "x"
  = inl (ValueError_contradicts (PyBool true) 0 "x" 3).
Proof. reflexivity. Qed.

(** ** The call as a rewrite of every axis on its own *)

Section Pointwise.

Context (names : gset string).

Lemma update_dim_accepts t d j n dp :
  dim t !! j = Some dp →
  update_dim names t d j n
  = if accepts names n j dp d
    then inr (store_dim t j (target n j dp d))
    else inl (refusal n j dp d).
Proof.
  intros Hj. unfold update_dim, assign_dim_value, accepts, target, refusal.
  rewrite Hj.
  destruct (isinstance_int d); [|by destruct (isinstance_str d) eqn:Hs;
    destruct d; simplify_eq/=].
  case_bool_decide.
  - destruct (HasField_dim_value dp && _); [done|]. simpl.
    by destruct (in_int64 (int_of d)).
  - destruct (decide (generated_dim_param n j ∈ names)) as [Hin|Hin].
    + rewrite bool_decide_true by done. by rewrite bool_decide_false by tauto.
    + rewrite bool_decide_false by done. by rewrite bool_decide_true.
Qed.

Lemma with_dim_dim t : with_dim t (dim t) = t.
Proof. by destruct t. Qed.

Lemma store_dim_with_dim t j x : store_dim t j x = with_dim t (<[j := x]> (dim t)).
Proof. done. Qed.

(** The loop over the entries of a tensor: it runs to its end exactly when
    every entry is accepted by its own axis, and then each axis holds its
    own target. *)
Lemma update_dims_pointwise arr : ∀ t j n,
  (all_accepted names n j (drop j (dim t)) arr = true →
   update_dims names t arr j n
   = (with_dim t (take j (dim t) ++ targets n j (drop j (dim t)) arr), None))
  ∧ (all_accepted names n j (drop j (dim t)) arr = false →
     is_Some (update_dims names t arr j n).2).
Proof.
  induction arr as [|d arr IH]; intros t j n.
  { simpl. split; [intros _|done]. by rewrite take_drop, with_dim_dim. }
  simpl. destruct (dim t !! j) as [dp|] eqn:Hj.
  2:{ rewrite (update_dim_out_of_range _ _ _ _ _ Hj).
      rewrite drop_ge by (by apply lookup_ge_None). by simpl. }
  rewrite (drop_S _ _ _ Hj). rewrite (update_dim_accepts _ _ _ _ _ Hj).
  destruct (accepts names n j dp d); simpl; [|done].
  destruct (IH (store_dim t j (target n j dp d)) (S j) n) as [IH1 IH2].
  apply lookup_lt_Some in Hj as Hlt.
  assert (drop (S j) (dim (store_dim t j (target n j dp d))) = drop (S j) (dim t))
    as Hdrop by (simpl; apply drop_insert_lt; lia).
  assert (take (S j) (dim (store_dim t j (target n j dp d)))
          = take j (dim t) ++ [target n j dp d]) as Htake.
  { simpl. rewrite (take_S_r _ _ (target n j dp d))
      by (by apply list_lookup_insert_eq).
    by rewrite take_insert_ge by lia. }
  rewrite Hdrop, Htake in IH1. rewrite Hdrop in IH2.
  split; [|done].
  intros Hacc. rewrite (IH1 Hacc). by rewrite <-app_assoc.
Qed.

Lemma update_dims_accepted t arr n :
  all_accepted names n 0 (dim t) arr = true →
  update_dims names t arr 0 n = (with_dim t (targets n 0 (dim t) arr), None).
Proof.
  intros H. destruct (update_dims_pointwise arr t 0 n) as [Heq _].
  rewrite drop_0 in Heq. by apply Heq.
Qed.

Lemma update_dims_refused t arr n :
  all_accepted names n 0 (dim t) arr = false →
  is_Some (update_dims names t arr 0 n).2.
Proof.
  intros H. destruct (update_dims_pointwise arr t 0 n) as [_ Hne].
  rewrite drop_0 in Hne. by apply Hne.
Qed.

Context (D : gmap string (list pyval)).

Lemma update_tensors_pointwise l :
  (forallb (tensor_accepted names D) l = true →
   update_tensors names D l = (rewritten D <$> l, None))
  ∧ (forallb (tensor_accepted names D) l = false →
     is_Some (update_tensors names D l).2).
Proof.
  induction l as [|t l [IH1 IH2]]; [done|].
  simpl. unfold tensor_accepted at 1 3, rewritten at 1.
  destruct (D !! name t) as [arr|]; simpl; [|by split].
  destruct (all_accepted names (name t) 0 (dim t) arr) eqn:Hacc; simpl.
  - rewrite (update_dims_accepted _ _ _ Hacc). split.
    + intros H. by rewrite (IH1 H).
    + intros H. specialize (IH2 H).
      by destruct (update_tensors names D l) as [l' r].
  - split; [done|]. intros _.
    destruct (update_dims_refused _ _ _ Hacc) as [e He].
    destruct (update_dims names t arr 0 (name t)) as [t' r]. simpl in He.
    by subst r.
Qed.

End Pointwise.

Lemma run_pointwise check_model m input_dims output_dims :
  (model_accepted m input_dims output_dims = true →
   run check_model m input_dims output_dims
   = (rewritten_model m input_dims output_dims,
      if check_model (rewritten_model m input_dims output_dims)
      then None else Some ValidationError))
  ∧ (model_accepted m input_dims output_dims = false →
     ∃ e, (run check_model m input_dims output_dims).2 = Some e
          ∧ e ≠ ValidationError).
Proof.
  unfold model_accepted, run, rewritten_model.
  destruct (update_tensors_pointwise (collect_dim_params m) input_dims
              (input (graph m))) as [Hi1 Hi2].
  destruct (update_tensors_pointwise (collect_dim_params m) output_dims
              (output (graph m))) as [Ho1 Ho2].
  destruct (forallb _ (input (graph m))) eqn:Hin; simpl.
  - rewrite (Hi1 eq_refl). simpl.
    destruct (forallb _ (output (graph m))) eqn:Hout; simpl.
    + rewrite (Ho1 eq_refl). split; [|done]. intros _.
      unfold with_graph, with_output, with_input; simpl.
      by destruct (check_model _).
    + split; [done|]. intros _. destruct (Ho2 eq_refl) as [e He].
      destruct (update_tensors _ output_dims _) as [o' r] eqn:Hloop.
      simpl in He. subst r. exists e. split; [done|].
      by eapply update_tensors_not_validation.
  - split; [done|]. intros _. destruct (Hi2 eq_refl) as [e He].
    destruct (update_tensors _ input_dims _) as [i' r] eqn:Hloop.
    simpl in He. subst r. exists e. split; [done|].
    by eapply update_tensors_not_validation.
Qed.

(** ** Beyond the axis-update rule *)

(** X1. Axis [j] of an input or output tensor has a target that is neither
    an integer (a [bool] included) nor a string.  The call fails and the axis
    keeps what it held; the exception is the invalid-type [ValueError], with
    the type of the target, when the call gets to the axis. *)
Theorem invalid_type_rule (check_model : ModelProto → bool) (h : store) (l : loc)
    (input_dims output_dims : gmap string (list pyval))
    (ph : phase) (i j : nat) (t : ValueInfoProto) (arr : list pyval)
    (d : pyval) (dp : Dimension) :
  tensors_of ph (h l) !! i = Some t →
  dims_for ph input_dims output_dims !! name t = Some arr →
  arr !! j = Some d →
  isinstance_int d = false →
  isinstance_str d = false →
  dim t !! j = Some dp →
  (∃ e, (update_inputs_outputs_dims check_model l input_dims output_dims h).2
        = inl e)
  ∧ axis_of
      ((update_inputs_outputs_dims check_model l input_dims output_dims h).1 l)
      ph i j = Some dp
  ∧ ∀ m_now t_now,
      at_axis (h l) input_dims output_dims ph i j = Some (m_now, t_now, d) →
      update_inputs_outputs_dims check_model l input_dims output_dims h
      = (write h l m_now, inl (ValueError_type (type_of d)))
      ∧ kind_of (ValueError_type (type_of d)) = InvalidTypeFailure.
Proof.
  intros Ht Harr Hd Hint Hstr Hdp.
  destruct (axis_fails check_model h l input_dims output_dims ph i j t arr d dp
              Ht Harr Hd Hdp (ValueError_type (type_of d)))
    as (Hfail & Hkeep & Hreached).
  { intros t_now _ Hj. unfold update_dim. by rewrite Hj, Hint, Hstr. }
  split; [done|]. split; [done|].
  intros m_now t_now Hat. split; [by eapply Hreached|done].
Qed.

Lemma invalid_type_rule_witness :
  tensors_of Inputs (Ex.only Ex.m 0) !! 0 = Some Ex.x
  ∧ dims_for Inputs {[ "x" := [PyStr "batch"; PyOther "float"] ]} ∅ !! name Ex.x
    = Some [PyStr "batch"; PyOther "float"]
  ∧ [PyStr "batch"; PyOther "float"] !! 1 = Some (PyOther "float")
  ∧ isinstance_int (PyOther "float") = false
  ∧ isinstance_str (PyOther "float") = false
  ∧ dim Ex.x !! 1 = Some (Ex.symbolic "n")
  ∧ update_inputs_outputs_dims Ex.accept 0
      {[ "x" := [PyStr "batch"; PyOther "float"] ]} ∅ (Ex.only Ex.m)
    = (write (Ex.only Ex.m) 0
         (Ex.model [Ex.tensor "x" [Ex.symbolic "batch"; Ex.symbolic "n"]]
                   [Ex.y] [Ex.hidden]),
       inl (ValueError_type "float")).
Proof.
  assert (tensors_of Inputs (Ex.only Ex.m 0) !! 0 = Some Ex.x) as Ht
    by reflexivity.
  assert (dims_for Inputs {[ "x" := [PyStr "batch"; PyOther "float"] ]} ∅
            !! name Ex.x = Some [PyStr "batch"; PyOther "float"]) as Harr
    by reflexivity.
  assert ([PyStr "batch"; PyOther "float"] !! 1 = Some (PyOther "float")) as Hd
    by reflexivity.
  assert (isinstance_int (PyOther "float") = false) as Hint by reflexivity.
  assert (isinstance_str (PyOther "float") = false) as Hstr by reflexivity.
  assert (dim Ex.x !! 1 = Some (Ex.symbolic "n")) as Hdp by reflexivity.
  repeat (split; [assumption|]).
  destruct (invalid_type_rule Ex.accept (Ex.only Ex.m) 0 _ _ Inputs 0 1 Ex.x _ _ _
              Ht Harr Hd Hint Hstr Hdp) as (_ & _ & Hreached).
  eapply Hreached. vm_compute. reflexivity.
Defined.

(** X2. [init_dim_param_set] adds to the set it is given the [dim_param] of
    every axis, of every tensor of its list, whose [oneof] holds a
    [dim_param], the empty string included, and nothing else; it removes
    nothing.  The set the call works with is what the three calls build from
    the empty set: the symbolic names of the inputs, the outputs and the
    value infos, in whatever order the lists are scanned. *)
Theorem init_dim_param_set_spec (acc : gset string) (infos : list ValueInfoProto)
    (m : ModelProto) (s : string) :
  (s ∈ init_dim_param_set acc infos ↔
   s ∈ acc ∨ ∃ t d, t ∈ infos ∧ d ∈ dim t
                    ∧ HasField_dim_param d = true ∧ get_dim_param d = s)
  ∧ acc ⊆ init_dim_param_set acc infos
  ∧ (s ∈ collect_dim_params m ↔
     s ∈ init_dim_param_set ∅ (input (graph m))
     ∨ s ∈ init_dim_param_set ∅ (output (graph m))
     ∨ s ∈ init_dim_param_set ∅ (value_info (graph m))).
Proof.
  assert (∀ infos' : list ValueInfoProto,
            dim_param_in infos' s ↔
            ∃ t d, t ∈ infos' ∧ d ∈ dim t
                   ∧ HasField_dim_param d = true ∧ get_dim_param d = s) as Hin.
  { intros infos'. unfold dim_param_in, HasField_dim_param, get_dim_param.
    split; intros (t & d & Ht & Hd & H); exists t, d; (split; [done|]);
      (split; [done|]).
    - by rewrite H.
    - destruct H as [H1 H2]. destruct (value d); by simplify_eq. }
  split; [|split].
  - by rewrite elem_of_init_dim_param_set, Hin.
  - intros s' Hs'. apply elem_of_init_dim_param_set. by left.
  - unfold collect_dim_params. rewrite !elem_of_init_dim_param_set.
    split.
    + intros [[[H|H]|H]|H]; [by apply not_elem_of_empty in H|..]; tauto.
    + intros [[H|H]|[[H|H]|[H|H]]];
        try (by apply not_elem_of_empty in H); tauto.
Qed.

Lemma call_pointwise check_model h l input_dims output_dims :
  (model_accepted (h l) input_dims output_dims = true →
   update_inputs_outputs_dims check_model l input_dims output_dims h
   = (write h l (rewritten_model (h l) input_dims output_dims),
      if check_model (rewritten_model (h l) input_dims output_dims)
      then inr l else inl ValidationError))
  ∧ (model_accepted (h l) input_dims output_dims = false →
     ∃ e, (update_inputs_outputs_dims check_model l input_dims output_dims h).2
          = inl e ∧ e ≠ ValidationError).
Proof.
  destruct (run_pointwise check_model (h l) input_dims output_dims) as [H1 H2].
  rewrite call_unfold. split.
  - intros Hacc. rewrite (H1 Hacc). simpl. by destruct (check_model _).
  - intros Hacc. destruct (H2 Hacc) as (e & He & Hne). exists e. simpl.
    by rewrite He.
Qed.


Lemma refused_after_accepted check_model h l input_dims output_dims :
  (update_inputs_outputs_dims check_model l input_dims output_dims h).2
    = inl ValidationError →
  model_accepted (h l) input_dims output_dims = true
  ∧ check_model (rewritten_model (h l) input_dims output_dims) = false.
Proof.
  destruct (call_pointwise check_model h l input_dims output_dims) as [H1 H2].
  destruct (model_accepted (h l) input_dims output_dims) eqn:Hacc.
  - rewrite (H1 eq_refl). simpl. by destruct (check_model _).
  - destruct (H2 eq_refl) as (e & He & Hne). rewrite He. by intros [= ->].
Qed.



(** ** What an exception tells *)

Lemma update_dims_raise_cause names arr : ∀ t j0 n t' e,
  update_dims names t arr j0 n = (t', Some e) →
  ∃ j d,
    arr !! j = Some d
    ∧ ((dim t !! (j0 + j) = None ∧ e = IndexError)
       ∨ ∃ dp, dim t !! (j0 + j) = Some dp
               ∧ accepts names n (j0 + j) dp d = false
               ∧ e = refusal n (j0 + j) dp d).
Proof.
  induction arr as [|d arr IH]; intros t j0 n t' e H; simpl in H; [done|].
  destruct (dim t !! j0) as [dp|] eqn:Hj.
  2:{ rewrite (update_dim_out_of_range _ _ _ _ _ Hj) in H. simplify_eq.
      exists 0, d. split; [done|]. left. by rewrite Nat.add_0_r. }
  rewrite (update_dim_accepts _ _ _ _ _ _ Hj) in H.
  destruct (accepts names n j0 dp d) eqn:Hacc.
  - apply IH in H as (j & d' & Hd' & Hcause). exists (S j), d'.
    split; [done|].
    replace (j0 + S j) with (S j0 + j) by lia.
    simpl in Hcause. by rewrite list_lookup_insert_ne in Hcause by lia.
  - simplify_eq. exists 0, d. split; [done|]. right. exists dp.
    by rewrite Nat.add_0_r.
Qed.

Lemma update_tensors_raise_cause names D l : ∀ l' e,
  update_tensors names D l = (l', Some e) →
  ∃ t, t ∈ l
       ∧ ((D !! name t = None ∧ e = KeyError (name t))
          ∨ ∃ arr t', D !! name t = Some arr
                      ∧ update_dims names t arr 0 (name t) = (t', Some e)).
Proof.
  induction l as [|t l IH]; intros l' e H; simpl in H; [done|].
  destruct (D !! name t) as [arr|] eqn:Harr.
  2:{ simplify_eq. exists t. split; [left|]. by left. }
  destruct (update_dims names t arr 0 (name t)) as [t' [e0|]] eqn:Hd.
  - simplify_eq. exists t. split; [left|]. right. by exists arr, t'.
  - destruct (update_tensors names D l) as [l0 r] eqn:Hl. simplify_eq.
    destruct (IH _ _ eq_refl) as (t0 & Ht0 & Hcause).
    exists t0. split; [by right|done].
Qed.

Lemma run_raise_cause check_model m input_dims output_dims e :
  (run check_model m input_dims output_dims).2 = Some e →
  e = ValidationError
  ∨ ∃ ph t,
      t ∈ tensors_of ph m
      ∧ ((dims_for ph input_dims output_dims !! name t = None
          ∧ e = KeyError (name t))
         ∨ ∃ arr t',
             dims_for ph input_dims output_dims !! name t = Some arr
             ∧ update_dims (collect_dim_params m) t arr 0 (name t)
               = (t', Some e)).
Proof.
  unfold run.
  destruct (update_tensors _ input_dims _) as [i' [e0|]] eqn:Hin; simpl.
  { intros [= ->]. right. exists Inputs.
    by apply update_tensors_raise_cause in Hin. }
  destruct (update_tensors _ output_dims _) as [o' [e0|]] eqn:Hout; simpl.
  { intros [= ->]. right. exists Outputs.
    by apply update_tensors_raise_cause in Hout. }
  destruct (check_model _); [done|]. intros [= <-]. by left.
Qed.

(** X5. An exception that leaves the call tells the truth about the model
    and the dictionaries the call was given.  [KeyError k]: a tensor named
    [k] has no entry.  [IndexError]: some tensor has more entries than axes.
    The contradiction [ValueError] for [d], [j], [n], [v]: axis [j] of a
    tensor named [n] held the fixed value [v], and its target [d] is a
    non-negative integer other than [v].  The name-collision [ValueError]
    for [j], [n]: axis [j] of a tensor named [n] has a negative target and
    [n ++ "_" ++ str(j)] was a symbolic name of the model.  The invalid-type
    [ValueError] for [ty]: some entry that has an axis is of type [ty],
    neither an integer nor a string.  The [ValueError] of the setter for
    [v]: some axis without another fixed value has the integer [v] as
    target, and [v] does not fit the [int64] field.  [ValidationError]:
    every entry was accepted and the validator refused the rewritten
    model. *)
Theorem failure_is_truthful (check_model : ModelProto → bool) (h : store)
    (l : loc) (input_dims output_dims : gmap string (list pyval)) (e : exn) :
  (update_inputs_outputs_dims check_model l input_dims output_dims h).2 = inl e →
  match e with
  | KeyError k =>
    ∃ ph t, t ∈ tensors_of ph (h l) ∧ name t = k
            ∧ dims_for ph input_dims output_dims !! k = None
  | IndexError =>
    ∃ ph t arr, t ∈ tensors_of ph (h l)
                ∧ dims_for ph input_dims output_dims !! name t = Some arr
                ∧ length (dim t) < length arr
  | ValueError_contradicts d j n v =>
    ∃ ph t arr dp,
      t ∈ tensors_of ph (h l) ∧ name t = n
      ∧ dims_for ph input_dims output_dims !! n = Some arr
      ∧ arr !! j = Some d
      ∧ isinstance_int d = true ∧ (0 ≤ int_of d)%Z
      ∧ dim t !! j = Some dp ∧ value dp = dim_value v ∧ v ≠ int_of d
  | ValueError_not_unique j n =>
    ∃ ph t arr d,
      t ∈ tensors_of ph (h l) ∧ name t = n
      ∧ dims_for ph input_dims output_dims !! n = Some arr
      ∧ arr !! j = Some d
      ∧ isinstance_int d = true ∧ (int_of d < 0)%Z
      ∧ j < length (dim t)
      ∧ n +:+ "_" +:+ pretty j ∈ collect_dim_params (h l)
  | ValueError_type ty =>
    ∃ ph t arr j d,
      t ∈ tensors_of ph (h l)
      ∧ dims_for ph input_dims output_dims !! name t = Some arr
      ∧ arr !! j = Some d
      ∧ isinstance_int d = false ∧ isinstance_str d = false
      ∧ type_of d = ty
      ∧ j < length (dim t)
  | ValueError_out_of_range v =>
    ∃ ph t arr j d dp,
      t ∈ tensors_of ph (h l)
      ∧ dims_for ph input_dims output_dims !! name t = Some arr
      ∧ arr !! j = Some d
      ∧ isinstance_int d = true ∧ int_of d = v ∧ (2 ^ 63 ≤ v)%Z
      ∧ dim t !! j = Some dp ∧ (∀ w, value dp = dim_value w → w = v)
  | ValidationError =>
    model_accepted (h l) input_dims output_dims = true
    ∧ check_model (rewritten_model (h l) input_dims output_dims) = false
  end.
Proof.
  intros Hfail.
  assert ((run check_model (h l) input_dims output_dims).2 = Some e) as Hrun.
  { rewrite call_unfold in Hfail. simpl in Hfail.
    destruct (run check_model (h l) input_dims output_dims).2; by simplify_eq. }
  destruct (run_raise_cause _ _ _ _ _ Hrun) as [->|(ph & t & Ht & Hcause)].
  { by apply refused_after_accepted. }
  destruct Hcause as [[Hnone ->]|(arr & t' & Harr & Hdims)].
  { by exists ph, t. }
  apply update_dims_raise_cause in Hdims as (j & d & Hd & Hcause).
  simpl in Hcause.
  destruct Hcause as [[Hj ->]|(dp & Hj & Hacc & ->)].
  { exists ph, t, arr. split; [done|]. split; [done|].
    apply lookup_ge_None in Hj. apply lookup_lt_Some in Hd. lia. }
  apply lookup_lt_Some in Hj as Hlt.
  unfold accepts in Hacc. unfold refusal.
  destruct (isinstance_int d) eqn:Hint.
  - case_bool_decide as Hsign.
    + destruct (HasField_dim_value dp && bool_decide (get_dim_value dp ≠ int_of d))
        eqn:Hcontra.
      * apply andb_true_iff in Hcontra as [Hhas Hne].
        apply bool_decide_eq_true in Hne.
        exists ph, t, arr, dp. repeat (split; [done|]).
        unfold HasField_dim_value, get_dim_value in *.
        by destruct (value dp).
      * simpl in Hacc. rewrite (in_int64_nonneg _ Hsign) in Hacc.
        apply bool_decide_eq_false in Hacc.
        assert (int64_max = 2 ^ 63 - 1)%Z as Hmax by reflexivity.
        exists ph, t, arr, j, d, dp. repeat (split; [done|]).
        split; [lia|]. split; [done|].
        intros w Hw. unfold HasField_dim_value, get_dim_value in Hcontra.
        rewrite Hw in Hcontra. simpl in Hcontra.
        apply bool_decide_eq_false in Hcontra. by apply dec_stable.
    + apply bool_decide_eq_false in Hacc.
      exists ph, t, arr, d. repeat (split; [done|]).
      split; [lia|]. split; [done|]. by apply dec_stable.
  - exists ph, t, arr, j, d. by repeat (split; [done|]).
Qed.

Lemma failure_is_truthful_witness :
  (update_inputs_outputs_dims Ex.accept 0 {[ "x" := [PyInt 4; PyStr "n"] ]} ∅
     (Ex.only Ex.m)).2
  = inl (ValueError_contradicts (PyInt 4) 0 "x" 3)
  ∧ ∃ ph t arr dp,
      t ∈ tensors_of ph (Ex.only Ex.m 0) ∧ name t = "x"
      ∧ dims_for ph {[ "x" := [PyInt 4; PyStr "n"] ]} ∅ !! "x" = Some arr
      ∧ arr !! 0 = Some (PyInt 4)
      ∧ isinstance_int (PyInt 4) = true ∧ (0 ≤ int_of (PyInt 4))%Z
      ∧ dim t !! 0 = Some dp ∧ value dp = dim_value 3 ∧ 3%Z ≠ int_of (PyInt 4).
Proof.
  assert ((update_inputs_outputs_dims Ex.accept 0
             {[ "x" := [PyInt 4; PyStr "n"] ]} ∅ (Ex.only Ex.m)).2
          = inl (ValueError_contradicts (PyInt 4) 0 "x" 3)) as Hfail
    by (vm_compute; reflexivity).
  split; [assumption|].
  exact (failure_is_truthful Ex.accept (Ex.only Ex.m) 0 _ _ _ Hfail).
Defined.

(** ** The model after a failure *)

Section AfterFailure.

Context (names : gset string).

Lemma update_dims_None_accepted t arr n t' :
  update_dims names t arr 0 n = (t', None) →
  t' = with_dim t (targets n 0 (dim t) arr).
Proof.
  intros H. destruct (all_accepted names n 0 (dim t) arr) eqn:Hacc.
  - rewrite (update_dims_accepted _ _ _ _ Hacc) in H. by simplify_eq.
  - destruct (update_dims_refused _ _ _ _ Hacc) as [e He].
    rewrite H in He. by simplify_eq.
Qed.

(** A loop over the entries that raises has raised at the first entry that
    its axis does not accept, with the exception of that entry, and has
    applied the entries before it, and no other. *)
Lemma update_dims_raise_point arr : ∀ t j0 n t' e,
  update_dims names t arr j0 n = (t', Some e) →
  ∃ j d,
    arr !! j = Some d
    ∧ all_accepted names n j0 (drop j0 (dim t)) (take j arr) = true
    ∧ ((dim t !! (j0 + j) = None ∧ e = IndexError)
       ∨ ∃ dp, dim t !! (j0 + j) = Some dp
               ∧ accepts names n (j0 + j) dp d = false
               ∧ e = refusal n (j0 + j) dp d)
    ∧ t' = with_dim t (take j0 (dim t)
                       ++ take j (targets n j0 (drop j0 (dim t)) arr)
                       ++ drop (j0 + j) (dim t)).
Proof.
  induction arr as [|d arr IH]; intros t j0 n t' e H; simpl in H; [done|].
  assert (t = with_dim t (take j0 (dim t) ++ take 0 (targets n j0 (drop j0 (dim t))
                                                    (d :: arr))
                          ++ drop (j0 + 0) (dim t))) as Hsame
    by (by rewrite take_0, Nat.add_0_r, app_nil_l, take_drop, with_dim_dim).
  destruct (dim t !! j0) as [dp|] eqn:Hj.
  2:{ rewrite (update_dim_out_of_range _ _ _ _ _ Hj) in H. simplify_eq.
      exists 0, d. split; [done|]. split; [done|]. split; [|done].
      left. by rewrite Nat.add_0_r. }
  rewrite (update_dim_accepts _ _ _ _ _ _ Hj) in H.
  destruct (accepts names n j0 dp d) eqn:Hacc.
  2:{ simplify_eq. exists 0, d. split; [done|]. split; [done|]. split; [|done].
      right. exists dp. by rewrite Nat.add_0_r. }
  clear Hsame.
  apply IH in H as (j & d' & Hd' & Hbefore & Hcause & ->).
  apply lookup_lt_Some in Hj as Hlen.
  assert (drop (S j0) (dim (store_dim t j0 (target n j0 dp d)))
          = drop (S j0) (dim t)) as Hdrop
    by (simpl; apply drop_insert_lt; lia).
  rewrite Hdrop in Hbefore.
  exists (S j), d'. split; [done|]. split; [|split].
  - rewrite (drop_S _ _ _ Hj). simpl. by rewrite Hacc, Hbefore.
  - replace (j0 + S j) with (S j0 + j) by lia.
    simpl in Hcause. by rewrite list_lookup_insert_ne in Hcause by lia.
  - unfold with_dim. simpl. f_equal.
    rewrite (drop_S _ _ _ Hj). simpl.
    rewrite (take_S_r _ _ (target n j0 dp d)) by (by apply list_lookup_insert_eq).
    rewrite take_insert_ge by lia.
    rewrite !drop_insert_lt by lia.
    rewrite <-app_assoc. simpl.
    by replace (j0 + S j) with (S (j0 + j)) by lia.
Qed.

Context (D : gmap string (list pyval)).

Lemma update_tensors_None_rewritten l l' :
  update_tensors names D l = (l', None) → l' = rewritten D <$> l.
Proof.
  intros H. destruct (update_tensors_pointwise names D l) as [H1 H2].
  destruct (forallb (tensor_accepted names D) l).
  - rewrite (H1 eq_refl) in H. by simplify_eq.
  - destruct (H2 eq_refl) as [e He]. rewrite H in He. by simplify_eq.
Qed.

Lemma update_tensors_None_accepted l l' :
  update_tensors names D l = (l', None) →
  forallb (tensor_accepted names D) l = true.
Proof.
  intros H. destruct (update_tensors_pointwise names D l) as [_ H2].
  destruct (forallb (tensor_accepted names D) l); [done|].
  destruct (H2 eq_refl) as [e He]. rewrite H in He. by simplify_eq.
Qed.

(** A loop over the tensors that raises has raised at the first tensor that
    is not accepted: for want of an entry, or at the first of its entries
    that its axis does not accept.  It has rewritten the tensors before that
    one, has applied to that one the entries before the one that raised, and
    has touched nothing else. *)
Lemma update_tensors_raise_point l : ∀ l' e,
  update_tensors names D l = (l', Some e) →
  ∃ i j t,
    l !! i = Some t
    ∧ forallb (tensor_accepted names D) (take i l) = true
    ∧ match D !! name t with
      | None => j = 0 ∧ e = KeyError (name t)
      | Some arr =>
        all_accepted names (name t) 0 (dim t) (take j arr) = true
        ∧ ∃ d, arr !! j = Some d
               ∧ ((dim t !! j = None ∧ e = IndexError)
                  ∨ ∃ dp, dim t !! j = Some dp
                          ∧ accepts names (name t) j dp d = false
                          ∧ e = refusal (name t) j dp d)
      end
    ∧ l' = (rewritten D <$> take i l)
           ++ with_dim t
                (take j (targets (name t) 0 (dim t) (default [] (D !! name t)))
                 ++ drop j (dim t))
              :: drop (S i) l.
Proof.
  induction l as [|t l IH]; intros l' e H; simpl in H; [done|].
  destruct (D !! name t) as [arr|] eqn:Harr.
  2:{ simplify_eq. exists 0, 0, t. split; [done|]. split; [done|].
      rewrite Harr. simpl. split; [done|]. by rewrite drop_0, with_dim_dim. }
  destruct (update_dims names t arr 0 (name t)) as [t' [e0|]] eqn:Hd.
  - simplify_eq.
    apply update_dims_raise_point in Hd as (j & d & Hdj & Hbefore & Hcause & ->).
    rewrite drop_0 in Hbefore. simpl in Hcause.
    exists 0, j, t. split; [done|]. split; [done|]. rewrite Harr. simpl.
    split; [|by rewrite drop_0]. split; [done|]. by exists d.
  - assert (tensor_accepted names D t = true) as Hacc.
    { unfold tensor_accepted. rewrite Harr.
      destruct (all_accepted names (name t) 0 (dim t) arr) eqn:Hall; [done|].
      destruct (update_dims_refused _ _ _ _ Hall) as [e0 He0].
      rewrite Hd in He0. by simplify_eq. }
    apply update_dims_None_accepted in Hd as ->.
    destruct (update_tensors names D l) as [l0 r] eqn:Hl. simplify_eq.
    destruct (IH _ _ eq_refl) as (i & j & t0 & Hi & Hbefore & Hcause & ->).
    exists (S i), j, t0. split; [done|]. split; [|split; [done|]].
    + simpl. by rewrite Hacc, Hbefore.
    + simpl. f_equal. unfold rewritten. by rewrite Harr.
Qed.

End AfterFailure.

(** X6. After a call that fails before the validator, the reference holds
    the model rewritten up to the point of failure and untouched from there
    on.  The point of failure is the first tensor [t], the [i]-th of its
    list, that is not accepted (every input being accepted when [t] is an
    output), and the first entry [j] of [t] that its axis does not accept,
    the exception being the one of that entry ([KeyError] and [j = 0] when
    [t] has no entry).  The tensors before [t] hold every one of their
    updates, [t] holds the updates of its first [j] axes, the axes of [t]
    from [j] on and the tensors after [t] are as the call found them; the
    outputs are untouched when [t] is an input, and the inputs hold every
    update when [t] is an output. *)
Theorem model_after_failure (check_model : ModelProto → bool) (h : store)
    (l : loc) (input_dims output_dims : gmap string (list pyval)) (e : exn) :
  (update_inputs_outputs_dims check_model l input_dims output_dims h).2 = inl e →
  e ≠ ValidationError →
  ∃ ph i j t,
    tensors_of ph (h l) !! i = Some t
    ∧ (ph = Outputs →
       forallb (tensor_accepted (collect_dim_params (h l)) input_dims)
         (input (graph (h l))) = true)
    ∧ forallb (tensor_accepted (collect_dim_params (h l))
                 (dims_for ph input_dims output_dims))
        (take i (tensors_of ph (h l))) = true
    ∧ match dims_for ph input_dims output_dims !! name t with
      | None => j = 0 ∧ e = KeyError (name t)
      | Some arr =>
        all_accepted (collect_dim_params (h l)) (name t) 0 (dim t) (take j arr)
          = true
        ∧ ∃ d, arr !! j = Some d
               ∧ ((dim t !! j = None ∧ e = IndexError)
                  ∨ ∃ dp, dim t !! j = Some dp
                          ∧ accepts (collect_dim_params (h l)) (name t) j dp d
                            = false
                          ∧ e = refusal (name t) j dp d)
      end
    ∧ tensors_of ph
        ((update_inputs_outputs_dims check_model l input_dims output_dims h).1 l)
      = (rewritten (dims_for ph input_dims output_dims)
           <$> take i (tensors_of ph (h l)))
        ++ with_dim t
             (take j (targets (name t) 0 (dim t)
                        (default [] (dims_for ph input_dims output_dims !! name t)))
              ++ drop j (dim t))
           :: drop (S i) (tensors_of ph (h l))
    ∧ (ph = Inputs →
       output (graph
         ((update_inputs_outputs_dims check_model l input_dims output_dims h).1 l))
       = output (graph (h l)))
    ∧ (ph = Outputs →
       input (graph
         ((update_inputs_outputs_dims check_model l input_dims output_dims h).1 l))
       = rewritten input_dims <$> input (graph (h l))).
Proof.
  intros Hfail Hne. rewrite call_model.
  rewrite call_unfold in Hfail. simpl in Hfail. revert Hfail. unfold run.
  destruct (update_tensors _ input_dims _) as [i' [e0|]] eqn:Hin; simpl.
  { intros [= ->].
    apply update_tensors_raise_point in Hin
      as (i & j & t & Hi & Hbefore & Hcause & ->).
    exists Inputs, i, j, t. by repeat (split; [done|]). }
  apply update_tensors_None_accepted in Hin as Hacc.
  apply update_tensors_None_rewritten in Hin as ->.
  destruct (update_tensors _ output_dims _) as [o' [e0|]] eqn:Hout; simpl.
  { intros [= ->].
    apply update_tensors_raise_point in Hout
      as (i & j & t & Hi & Hbefore & Hcause & ->).
    exists Outputs, i, j, t. by repeat (split; [done|]). }
  destruct (check_model _); [done|]. by intros [= <-].
Qed.

(** The call of [partial_mutation_is_kept]: the point of failure is axis 1 of
    the first input, and axis 0 has been renamed. *)
Lemma model_after_failure_witness :
  let m := Ex.model [Ex.x] [Ex.y] [Ex.tensor "hidden" [Ex.symbolic "x_1"]] in
  let input_dims : gmap string (list pyval) :=
    {[ "x" := [PyStr "batch"; PyInt (-1)] ]} in
  (update_inputs_outputs_dims Ex.accept 0 input_dims ∅ (Ex.only m)).2
  = inl (ValueError_not_unique 1 "x")
  ∧ ValueError_not_unique 1 "x" ≠ ValidationError
  ∧ ∃ ph i j t,
      tensors_of ph (Ex.only m 0) !! i = Some t
      ∧ (ph = Outputs →
         forallb (tensor_accepted (collect_dim_params (Ex.only m 0)) input_dims)
           (input (graph (Ex.only m 0))) = true)
      ∧ forallb (tensor_accepted (collect_dim_params (Ex.only m 0))
                   (dims_for ph input_dims ∅))
          (take i (tensors_of ph (Ex.only m 0))) = true
      ∧ match dims_for ph input_dims ∅ !! name t with
        | None => j = 0 ∧ ValueError_not_unique 1 "x" = KeyError (name t)
        | Some arr =>
          all_accepted (collect_dim_params (Ex.only m 0)) (name t) 0 (dim t)
            (take j arr) = true
          ∧ ∃ d, arr !! j = Some d
                 ∧ ((dim t !! j = None ∧ ValueError_not_unique 1 "x" = IndexError)
                    ∨ ∃ dp, dim t !! j = Some dp
                            ∧ accepts (collect_dim_params (Ex.only m 0)) (name t)
                                j dp d = false
                            ∧ ValueError_not_unique 1 "x" = refusal (name t) j dp d)
        end
      ∧ tensors_of ph
          ((update_inputs_outputs_dims Ex.accept 0 input_dims ∅ (Ex.only m)).1 0)
        = (rewritten (dims_for ph input_dims ∅)
             <$> take i (tensors_of ph (Ex.only m 0)))
          ++ with_dim t
               (take j (targets (name t) 0 (dim t)
                          (default [] (dims_for ph input_dims ∅ !! name t)))
                ++ drop j (dim t))
             :: drop (S i) (tensors_of ph (Ex.only m 0))
      ∧ (ph = Inputs →
         output (graph
           ((update_inputs_outputs_dims Ex.accept 0 input_dims ∅ (Ex.only m)).1 0))
         = output (graph (Ex.only m 0)))
      ∧ (ph = Outputs →
         input (graph
           ((update_inputs_outputs_dims Ex.accept 0 input_dims ∅ (Ex.only m)).1 0))
         = rewritten input_dims <$> input (graph (Ex.only m 0))).
Proof.
  intros m input_dims.
  assert ((update_inputs_outputs_dims Ex.accept 0 input_dims ∅ (Ex.only m)).2
          = inl (ValueError_not_unique 1 "x")) as Hfail
    by (vm_compute; reflexivity).
  assert (ValueError_not_unique 1 "x" ≠ ValidationError) as Hne by discriminate.
  split; [assumption|]. split; [assumption|].
  exact (model_after_failure Ex.accept _ 0 _ _ _ Hfail Hne).
Defined.

(** ** Calling again *)

Lemma tensors_of_model_skeleton ph m :
  tensors_of ph (model_skeleton m) = skeleton <$> tensors_of ph m.
Proof. by destruct ph. Qed.

(** The tensor at a place of the final model is the tensor the call found
    there, but for the [oneof] of its axes. *)
Lemma call_tensor_skeleton check_model h l input_dims output_dims ph i t' :
  tensors_of ph
    ((update_inputs_outputs_dims check_model l input_dims output_dims h).1 l)
    !! i = Some t' →
  ∃ t, tensors_of ph (h l) !! i = Some t ∧ skeleton t' = skeleton t.
Proof.
  rewrite call_model. intros Ht'.
  pose proof (run_skeleton check_model (h l) input_dims output_dims) as Hsk.
  apply (f_equal (tensors_of ph)) in Hsk.
  rewrite !tensors_of_model_skeleton in Hsk.
  apply (f_equal (λ x, x !! i)) in Hsk. simpl in Hsk.
  rewrite !list_lookup_fmap, Ht' in Hsk. simpl in Hsk.
  destruct (tensors_of ph (h l) !! i) as [t|]; simpl in Hsk; [|done].
  exists t. split; [done|]. congruence.
Qed.

(** X7. The call is not repeatable once it has generated a name.  After a
    call that returned, with a negative target for axis [j] of a tensor, the
    same call on the model it left behind fails; it raises the name-collision
    [ValueError] when it gets to that axis, since the name generated the
    first time is now a symbolic name of the model. *)
Theorem second_call_collides (check_model check' : ModelProto → bool) (h : store)
    (l : loc) (input_dims output_dims : gmap string (list pyval))
    (ph : phase) (i j : nat) (t : ValueInfoProto) (arr : list pyval) (z : Z) :
  (update_inputs_outputs_dims check_model l input_dims output_dims h).2 = inr l →
  tensors_of ph (h l) !! i = Some t →
  dims_for ph input_dims output_dims !! name t = Some arr →
  arr !! j = Some (PyInt z) →
  (z < 0)%Z →
  let h' := (update_inputs_outputs_dims check_model l input_dims output_dims h).1 in
  (∃ e, (update_inputs_outputs_dims check' l input_dims output_dims h').2 = inl e)
  ∧ ∀ m_now t_now,
      at_axis (h' l) input_dims output_dims ph i j = Some (m_now, t_now, PyInt z) →
      update_inputs_outputs_dims check' l input_dims output_dims h'
      = (write h' l m_now, inl (ValueError_not_unique j (name t))).
Proof.
  intros Hret Ht Harr Hd Hz h'.
  destruct (returned_axis_generated _ _ _ _ _ _ _ _ _ _ _ _ Hret Ht Harr Hd Hz)
    as (dp & Hdp & Haxis).
  fold h' in Haxis. unfold axis_of in Haxis.
  destruct (tensors_of ph (h' l) !! i) as [t'|] eqn:Ht'; [|done].
  simpl in Haxis.
  destruct (call_tensor_skeleton _ _ _ _ _ _ _ _ Ht') as (t0 & Ht0 & Hsk).
  assert (t0 = t) as -> by congruence.
  apply skeleton_name in Hsk as Hname.
  assert (generated_dim_param (name t') j ∈ collect_dim_params (h' l)) as Hin.
  { apply elem_of_collect_dim_params.
    exists t', (set_dim_param dp (generated_dim_param (name t) j)).
    split; [|split; [by eapply list_elem_of_lookup_2|by rewrite Hname]].
    apply list_elem_of_lookup_2 in Ht'.
    destruct ph; simpl in Ht'; rewrite !elem_of_app; tauto. }
  rewrite <-Hname in Harr.
  destruct (axis_fails check' h' l input_dims output_dims ph i j t' arr (PyInt z)
              _ Ht' Harr Hd Haxis (ValueError_not_unique j (name t')))
    as (Hfail & _ & Hreached).
  { intros t_now _ Hj. by eapply update_dim_collision. }
  split; [done|]. by rewrite <-Hname.
Qed.

Lemma second_call_collides_witness :
  (update_inputs_outputs_dims Ex.accept 0 {[ "x" := [PyInt 3; PyInt (-1)] ]}
     {[ "y" := [PyStr "n"; PyInt 5] ]} (Ex.only Ex.m)).2 = inr 0
  ∧ tensors_of Inputs (Ex.only Ex.m 0) !! 0 = Some Ex.x
  ∧ dims_for Inputs {[ "x" := [PyInt 3; PyInt (-1)] ]}
      {[ "y" := [PyStr "n"; PyInt 5] ]} !! name Ex.x
    = Some [PyInt 3; PyInt (-1)]
  ∧ [PyInt 3; PyInt (-1)] !! 1 = Some (PyInt (-1))
  ∧ (-1 < 0)%Z
  ∧ ∃ e,
      (update_inputs_outputs_dims Ex.accept 0 {[ "x" := [PyInt 3; PyInt (-1)] ]}
         {[ "y" := [PyStr "n"; PyInt 5] ]}
         (update_inputs_outputs_dims Ex.accept 0
            {[ "x" := [PyInt 3; PyInt (-1)] ]}
            {[ "y" := [PyStr "n"; PyInt 5] ]} (Ex.only Ex.m)).1).2 = inl e.
Proof.
  assert ((update_inputs_outputs_dims Ex.accept 0
             {[ "x" := [PyInt 3; PyInt (-1)] ]}
             {[ "y" := [PyStr "n"; PyInt 5] ]} (Ex.only Ex.m)).2 = inr 0) as Hret
    by (vm_compute; reflexivity).
  assert (tensors_of Inputs (Ex.only Ex.m 0) !! 0 = Some Ex.x) as Ht
    by reflexivity.
  assert (dims_for Inputs {[ "x" := [PyInt 3; PyInt (-1)] ]}
            {[ "y" := [PyStr "n"; PyInt 5] ]} !! name Ex.x
          = Some [PyInt 3; PyInt (-1)]) as Harr by reflexivity.
  assert ([PyInt 3; PyInt (-1)] !! 1 = Some (PyInt (-1))) as Hd by reflexivity.
  assert (-1 < 0)%Z as Hz by lia.
  repeat (split; [assumption|]).
  apply (second_call_collides Ex.accept Ex.accept (Ex.only Ex.m) 0 _ _ Inputs 0 1
           Ex.x _ (-1) Hret Ht Harr Hd Hz).
Defined.

Section Repeat.

Context (names names' : gset string).

Lemma accepts_again n j dp d :
  accepts names n j dp d = true →
  asks_generated d = false →
  accepts names' n j (target n j dp d) d = true
  ∧ target n j (target n j dp d) d = target n j dp d.
Proof.
  unfold accepts, target, asks_generated.
  destruct (isinstance_int d) eqn:Hint; simpl.
  - case_bool_decide as Hsign.
    + intros [_ Hfit]%andb_true_iff _. split; [|done]. rewrite Hfit.
      unfold HasField_dim_value, get_dim_value. simpl.
      by rewrite bool_decide_false by (intros H; by apply H).
    + intros _ Hneg. apply bool_decide_eq_false in Hneg. lia.
  - by intros -> _.
Qed.

Lemma all_accepted_again n arr : ∀ j shape,
  all_accepted names n j shape arr = true →
  Forall (λ d, asks_generated d = false) arr →
  all_accepted names' n j (targets n j shape arr) arr = true
  ∧ targets n j (targets n j shape arr) arr = targets n j shape arr.
Proof.
  induction arr as [|d arr IH]; intros j shape Hacc Hno; [done|].
  destruct shape as [|dp shape]; [done|]. simpl in *.
  apply andb_true_iff in Hacc as [Hd Hrest].
  apply Forall_cons in Hno as [Hnd Hno].
  destruct (accepts_again _ _ _ _ Hd Hnd) as [-> ->].
  by destruct (IH _ _ Hrest Hno) as [-> ->].
Qed.

Context (D : gmap string (list pyval)).

Lemma tensor_accepted_again t :
  tensor_accepted names D t = true →
  (∀ arr, D !! name t = Some arr → Forall (λ d, asks_generated d = false) arr) →
  tensor_accepted names' D (rewritten D t) = true
  ∧ rewritten D (rewritten D t) = rewritten D t.
Proof.
  unfold tensor_accepted, rewritten.
  destruct (D !! name t) as [arr|] eqn:Harr; [|done].
  intros Hacc Hno. simpl. rewrite Harr. simpl.
  destruct (all_accepted_again _ _ _ _ Hacc (Hno _ eq_refl)) as [-> Heq].
  split; [done|]. unfold with_dim. simpl. by rewrite Heq.
Qed.

Lemma tensors_accepted_again l :
  forallb (tensor_accepted names D) l = true →
  (∀ t arr, t ∈ l → D !! name t = Some arr →
            Forall (λ d, asks_generated d = false) arr) →
  forallb (tensor_accepted names' D) (rewritten D <$> l) = true
  ∧ rewritten D <$> (rewritten D <$> l) = rewritten D <$> l.
Proof.
  induction l as [|t l IH]; intros Hacc Hno; [done|].
  simpl in Hacc. apply andb_true_iff in Hacc as [Ht Hl].
  rewrite !fmap_cons. simpl.
  destruct (tensor_accepted_again t Ht) as [-> ->].
  { intros arr. apply Hno. by left. }
  destruct (IH Hl) as [-> ->]; [|done].
  intros t0 arr Ht0. apply Hno. by right.
Qed.

End Repeat.

(** X8. The call is repeatable when it generates no name.  After a call that
    returned, on dictionaries that give no negative integer to a tensor of
    the model, the same call on the model it left behind returns again and
    changes nothing: no object of the store is different afterwards. *)
Theorem second_call_is_identity (check_model : ModelProto → bool) (h : store)
    (l : loc) (input_dims output_dims : gmap string (list pyval)) :
  (update_inputs_outputs_dims check_model l input_dims output_dims h).2 = inr l →
  (∀ ph t arr d,
     t ∈ tensors_of ph (h l) →
     dims_for ph input_dims output_dims !! name t = Some arr →
     d ∈ arr →
     asks_generated d = false) →
  let h' := (update_inputs_outputs_dims check_model l input_dims output_dims h).1 in
  (update_inputs_outputs_dims check_model l input_dims output_dims h').2 = inr l
  ∧ ∀ l0,
      (update_inputs_outputs_dims check_model l input_dims output_dims h').1 l0
      = h' l0.
Proof.
  intros Hret Hno h'.
  destruct (call_pointwise check_model h l input_dims output_dims) as [H1 H2].
  destruct (model_accepted (h l) input_dims output_dims) eqn:Hacc.
  2:{ destruct (H2 eq_refl) as (e & He & _). by rewrite He in Hret. }
  specialize (H1 eq_refl).
  assert (h' l = rewritten_model (h l) input_dims output_dims) as Hm'.
  { unfold h'. rewrite H1. simpl. apply write_same. }
  assert (check_model (rewritten_model (h l) input_dims output_dims) = true)
    as Hcheck.
  { rewrite H1 in Hret. simpl in Hret. by destruct (check_model _). }
  unfold model_accepted in Hacc. apply andb_true_iff in Hacc as [Hin Hout].
  destruct (tensors_accepted_again (collect_dim_params (h l))
              (collect_dim_params (h' l)) input_dims (input (graph (h l))) Hin)
    as [Hin' Hin''].
  { intros t arr Ht Harr. apply Forall_forall. intros d Hd.
    by apply (Hno Inputs t arr d). }
  destruct (tensors_accepted_again (collect_dim_params (h l))
              (collect_dim_params (h' l)) output_dims (output (graph (h l))) Hout)
    as [Hout' Hout''].
  { intros t arr Ht Harr. apply Forall_forall. intros d Hd.
    by apply (Hno Outputs t arr d). }
  assert (model_accepted (h' l) input_dims output_dims = true) as Hacc'.
  { unfold model_accepted. rewrite Hm' at 2 4. simpl. by rewrite Hin', Hout'. }
  assert (rewritten_model (h' l) input_dims output_dims = h' l) as Hfix.
  { rewrite Hm'. unfold rewritten_model, with_graph, with_output, with_input.
    simpl. by rewrite Hin'', Hout''. }
  destruct (call_pointwise check_model h' l input_dims output_dims) as [H1' _].
  rewrite (H1' Hacc'), Hfix, Hm', Hcheck. simpl. split; [done|].
  intros l0. unfold write. case_decide; [by subst|done].
Qed.

Lemma second_call_is_identity_witness :
  (update_inputs_outputs_dims Ex.accept 0 {[ "x" := [PyInt 3; PyStr "batch"] ]}
     {[ "y" := [PyStr "batch"; PyInt 5] ]} (Ex.only Ex.m)).2 = inr 0
  ∧ (∀ ph t arr d,
       t ∈ tensors_of ph (Ex.only Ex.m 0) →
       dims_for ph {[ "x" := [PyInt 3; PyStr "batch"] ]}
         {[ "y" := [PyStr "batch"; PyInt 5] ]} !! name t = Some arr →
       d ∈ arr →
       asks_generated d = false)
  ∧ (update_inputs_outputs_dims Ex.accept 0 {[ "x" := [PyInt 3; PyStr "batch"] ]}
       {[ "y" := [PyStr "batch"; PyInt 5] ]}
       (update_inputs_outputs_dims Ex.accept 0
          {[ "x" := [PyInt 3; PyStr "batch"] ]}
          {[ "y" := [PyStr "batch"; PyInt 5] ]} (Ex.only Ex.m)).1).2 = inr 0.
Proof.
  assert ((update_inputs_outputs_dims Ex.accept 0
             {[ "x" := [PyInt 3; PyStr "batch"] ]}
             {[ "y" := [PyStr "batch"; PyInt 5] ]} (Ex.only Ex.m)).2 = inr 0)
    as Hret by (vm_compute; reflexivity).
  assert (∀ ph t arr d,
            t ∈ tensors_of ph (Ex.only Ex.m 0) →
            dims_for ph {[ "x" := [PyInt 3; PyStr "batch"] ]}
              {[ "y" := [PyStr "batch"; PyInt 5] ]} !! name t = Some arr →
            d ∈ arr →
            asks_generated d = false) as Hno.
  { intros ph t arr d Ht Harr Hd.
    destruct ph; simpl in Ht; apply list_elem_of_singleton in Ht as ->;
      vm_compute in Harr; simplify_eq;
      repeat (apply elem_of_cons in Hd as [->|Hd]; [reflexivity|]);
      by apply elem_of_nil in Hd. }
  split; [assumption|]. split; [assumption|].
  apply (second_call_is_identity Ex.accept (Ex.only Ex.m) 0 _ _ Hret Hno).
Defined.

(** ** Names that are not distinct, keys that name no tensor *)

(** X9. Two tensors of the same name, at different places of the inputs and
    outputs, with a negative target for the same axis [j]: the call does not
    object, and after a call that returns the two axes hold one and the
    same generated name. *)
Theorem same_name_same_generated (check_model : ModelProto → bool) (h : store)
    (l : loc) (input_dims output_dims : gmap string (list pyval)) (j : nat)
    (ph1 : phase) (i1 : nat) (t1 : ValueInfoProto) (arr1 : list pyval) (z1 : Z)
    (ph2 : phase) (i2 : nat) (t2 : ValueInfoProto) (arr2 : list pyval) (z2 : Z) :
  (update_inputs_outputs_dims check_model l input_dims output_dims h).2 = inr l →
  tensors_of ph1 (h l) !! i1 = Some t1 →
  dims_for ph1 input_dims output_dims !! name t1 = Some arr1 →
  arr1 !! j = Some (PyInt z1) →
  (z1 < 0)%Z →
  tensors_of ph2 (h l) !! i2 = Some t2 →
  dims_for ph2 input_dims output_dims !! name t2 = Some arr2 →
  arr2 !! j = Some (PyInt z2) →
  (z2 < 0)%Z →
  (ph1, i1) ≠ (ph2, i2) →
  name t1 = name t2 →
  ∃ d1 d2,
    axis_of
      ((update_inputs_outputs_dims check_model l input_dims output_dims h).1 l)
      ph1 i1 j = Some d1
    ∧ axis_of
        ((update_inputs_outputs_dims check_model l input_dims output_dims h).1 l)
        ph2 i2 j = Some d2
    ∧ value d1 = dim_param (name t1 +:+ "_" +:+ pretty j)
    ∧ value d2 = value d1.
Proof.
  intros Hret Ht1 Harr1 Hd1 Hz1 Ht2 Harr2 Hd2 Hz2 _ Hname.
  destruct (returned_axis_generated _ _ _ _ _ _ _ _ _ _ _ _ Hret Ht1 Harr1 Hd1 Hz1)
    as (dp1 & _ & Ha1).
  destruct (returned_axis_generated _ _ _ _ _ _ _ _ _ _ _ _ Hret Ht2 Harr2 Hd2 Hz2)
    as (dp2 & _ & Ha2).
  eexists _, _. split; [done|]. split; [done|]. simpl.
  split; [done|]. by rewrite Hname.
Qed.

Lemma same_name_same_generated_witness :
  let m := Ex.model [Ex.tensor "x" [Ex.fixed 2]] [Ex.tensor "x" [Ex.fixed 2]] [] in
  (update_inputs_outputs_dims Ex.accept 0 {[ "x" := [PyInt (-1)] ]}
     {[ "x" := [PyInt (-1)] ]} (Ex.only m)).2 = inr 0
  ∧ tensors_of Inputs (Ex.only m 0) !! 0 = Some (Ex.tensor "x" [Ex.fixed 2])
  ∧ tensors_of Outputs (Ex.only m 0) !! 0 = Some (Ex.tensor "x" [Ex.fixed 2])
  ∧ (Inputs, 0) ≠ (Outputs, 0)
  ∧ ∃ d1 d2,
      axis_of
        ((update_inputs_outputs_dims Ex.accept 0 {[ "x" := [PyInt (-1)] ]}
            {[ "x" := [PyInt (-1)] ]} (Ex.only m)).1 0) Inputs 0 0 = Some d1
      ∧ axis_of
          ((update_inputs_outputs_dims Ex.accept 0 {[ "x" := [PyInt (-1)] ]}
              {[ "x" := [PyInt (-1)] ]} (Ex.only m)).1 0) Outputs 0 0 = Some d2
      ∧ value d1 = dim_param "x_0"
      ∧ value d2 = value d1.
Proof.
  intros m.
  assert ((update_inputs_outputs_dims Ex.accept 0 {[ "x" := [PyInt (-1)] ]}
             {[ "x" := [PyInt (-1)] ]} (Ex.only m)).2 = inr 0) as Hret
    by (vm_compute; reflexivity).
  assert (tensors_of Inputs (Ex.only m 0) !! 0 = Some (Ex.tensor "x" [Ex.fixed 2]))
    as Ht1 by reflexivity.
  assert (tensors_of Outputs (Ex.only m 0) !! 0 = Some (Ex.tensor "x" [Ex.fixed 2]))
    as Ht2 by reflexivity.
  assert ((Inputs, 0) ≠ (Outputs, 0)) as Hne by discriminate.
  repeat (split; [assumption|]).
  assert (-1 < 0)%Z as Hz by lia.
  exact (same_name_same_generated Ex.accept (Ex.only m) 0 _ _ 0
           Inputs 0 _ [PyInt (-1)] (-1) Outputs 0 _ [PyInt (-1)] (-1)
           Hret Ht1 eq_refl eq_refl Hz Ht2 eq_refl eq_refl Hz Hne eq_refl).
Defined.

Lemma update_tensors_ext names (D D' : gmap string (list pyval)) l :
  (∀ t, t ∈ l → D !! name t = D' !! name t) →
  update_tensors names D l = update_tensors names D' l.
Proof.
  induction l as [|t l IH]; intros Hagree; [done|].
  simpl. rewrite <-(Hagree t) by (by left).
  rewrite IH; [done|]. intros t0 Ht0. apply Hagree. by right.
Qed.

(** X10. The dictionaries are read at the names of the tensors of the model,
    [input_dims] at the inputs and [output_dims] at the outputs, and nowhere
    else: two pairs of dictionaries that agree there give the same call; in
    particular an entry under a key that names no input, or no output, is
    ignored in silence. *)
Theorem other_keys_are_ignored (check_model : ModelProto → bool) (h : store)
    (l : loc) (input_dims output_dims input_dims' output_dims'
              : gmap string (list pyval)) :
  (∀ t, t ∈ input (graph (h l)) → input_dims !! name t = input_dims' !! name t) →
  (∀ t, t ∈ output (graph (h l)) → output_dims !! name t = output_dims' !! name t) →
  update_inputs_outputs_dims check_model l input_dims' output_dims' h
  = update_inputs_outputs_dims check_model l input_dims output_dims h
  ∧ (∀ k arr,
       (∀ t, t ∈ input (graph (h l)) → name t ≠ k) →
       update_inputs_outputs_dims check_model l (<[k := arr]> input_dims)
         output_dims h
       = update_inputs_outputs_dims check_model l input_dims output_dims h)
  ∧ (∀ k arr,
       (∀ t, t ∈ output (graph (h l)) → name t ≠ k) →
       update_inputs_outputs_dims check_model l input_dims
         (<[k := arr]> output_dims) h
       = update_inputs_outputs_dims check_model l input_dims output_dims h).
Proof.
  assert (∀ I1 O1 I2 O2 : gmap string (list pyval),
            (∀ t, t ∈ input (graph (h l)) → I1 !! name t = I2 !! name t) →
            (∀ t, t ∈ output (graph (h l)) → O1 !! name t = O2 !! name t) →
            update_inputs_outputs_dims check_model l I2 O2 h
            = update_inputs_outputs_dims check_model l I1 O1 h) as Hagree.
  { intros I1 O1 I2 O2 Hi Ho. rewrite !call_unfold. unfold run. simpl.
    by rewrite (update_tensors_ext _ I1 I2 _ Hi),
               (update_tensors_ext _ O1 O2 _ Ho). }
  intros Hi Ho. split; [by apply Hagree|]. split.
  - intros k arr Hk. apply Hagree; [|done].
    intros t Ht. by rewrite lookup_insert_ne by (intros ->; by eapply Hk).
  - intros k arr Hk. apply Hagree; [done|].
    intros t Ht. by rewrite lookup_insert_ne by (intros ->; by eapply Hk).
Qed.

Lemma other_keys_are_ignored_witness :
  (∀ t, t ∈ input (graph (Ex.only Ex.m 0)) →
        ({[ "x" := [PyInt 3; PyStr "n"] ]} : gmap string (list pyval)) !! name t
        = ({[ "x" := [PyInt 3; PyStr "n"]; "zz" := [PyInt 9] ]}
             : gmap string (list pyval)) !! name t)
  ∧ (∀ t, t ∈ output (graph (Ex.only Ex.m 0)) →
          ({[ "y" := [PyStr "n"; PyInt 5] ]} : gmap string (list pyval)) !! name t
          = ({[ "y" := [PyStr "n"; PyInt 5] ]} : gmap string (list pyval))
              !! name t)
  ∧ update_inputs_outputs_dims Ex.accept 0
      {[ "x" := [PyInt 3; PyStr "n"]; "zz" := [PyInt 9] ]}
      {[ "y" := [PyStr "n"; PyInt 5] ]} (Ex.only Ex.m)
    = update_inputs_outputs_dims Ex.accept 0 {[ "x" := [PyInt 3; PyStr "n"] ]}
        {[ "y" := [PyStr "n"; PyInt 5] ]} (Ex.only Ex.m).
Proof.
  assert (∀ t, t ∈ input (graph (Ex.only Ex.m 0)) →
               ({[ "x" := [PyInt 3; PyStr "n"] ]} : gmap string (list pyval))
                 !! name t
               = ({[ "x" := [PyInt 3; PyStr "n"]; "zz" := [PyInt 9] ]}
                    : gmap string (list pyval)) !! name t) as Hi.
  { intros t Ht. simpl in Ht. apply list_elem_of_singleton in Ht as ->.
    reflexivity. }
  assert (∀ t, t ∈ output (graph (Ex.only Ex.m 0)) →
               ({[ "y" := [PyStr "n"; PyInt 5] ]} : gmap string (list pyval))
                 !! name t
               = ({[ "y" := [PyStr "n"; PyInt 5] ]} : gmap string (list pyval))
                   !! name t) as Ho by done.
  split; [assumption|]. split; [assumption|].
  apply (other_keys_are_ignored Ex.accept (Ex.only Ex.m) 0 _ _ _ _ Hi Ho).
Defined.
